(** * ipymediator.interface.component: the Component adapter

    A shallow embedding of [src/ipymediator/interface/component.py].  The
    module is glue between three collaborators: a widget of the GUI toolkit
    (traits, attribute lookup, observers, click callbacks), a Mediator
    (one operation, [notify]) and the Component that binds the two.

    Python objects are shared and mutated in place, so widgets and
    Components live in a store and are named by their identity; every
    operation is a function from a store to a store and an outcome, the
    outcome being a value or a raised exception. *)

From Stdlib Require Import ZArith DecimalString.
From stdpp Require Import gmap strings list fin_maps.

Set Warnings "-register-all".

(** ** Python values and exceptions *)

(** The values an attribute of a widget can hold, as far as this module
    looks at them.  [VObj] stands for any other object (a bound method, a
    comm, a layout), known by its identity only. *)
Inductive pyval : Type :=
| VNone
| VBool (b : bool)
| VInt (z : Z)
| VStr (s : string)
| VTuple (vs : list pyval)
| VObj (id : nat).

(** [a == b], then [bool(...)]: [bool] is a subclass of [int], so [True == 1];
    tuples compare element by element; other objects compare by identity. *)
Fixpoint py_eqb (a b : pyval) : bool :=
  match a, b with
  | VNone, VNone => true
  | VBool x, VBool y => Bool.eqb x y
  | VBool x, VInt y => Z.eqb (Z.b2z x) y
  | VInt x, VBool y => Z.eqb x (Z.b2z y)
  | VInt x, VInt y => Z.eqb x y
  | VStr x, VStr y => String.eqb x y
  | VTuple xs, VTuple ys =>
      (fix all2 (xs ys : list pyval) {struct xs} : bool :=
         match xs, ys with
         | [], [] => true
         | x :: xs', y :: ys' => py_eqb x y && all2 xs' ys'
         | _, _ => false
         end) xs ys
  | VObj i, VObj j => Nat.eqb i j
  | _, _ => false
  end.

(** Truth value of an object, as [not] and [or] test it. *)
Definition py_truthy (v : pyval) : bool :=
  match v with
  | VNone => false
  | VBool b => b
  | VInt z => negb (Z.eqb z 0)
  | VStr s => negb (String.eqb s "")
  | VTuple vs => match vs with [] => false | _ => true end
  | VObj _ => true
  end.

(** [not v] *)
Definition py_not (v : pyval) : pyval := VBool (negb (py_truthy v)).

(** The classes of exceptions.  The first four and [OtherError] (any other
    class, under its name) derive from [Exception]; [NotAnException] stands
    for the classes that derive from [BaseException] alone:
    [KeyboardInterrupt], [SystemExit], [GeneratorExit]. *)
Inductive exn_kind : Type :=
| AttributeError
| TypeError
| ValueError
| TraitError
| OtherError (tag : string)
| NotAnException (tag : string).

(** An exception: its class, its message and, for [raise ... from e], the
    exception it is chained to ([__cause__]). *)
Inductive exn : Type :=
| Exn (kind : exn_kind) (msg : string) (cause : option exn).

Definition exn_kind_of (e : exn) : exn_kind := let 'Exn k _ _ := e in k.
Definition exn_msg (e : exn) : string := let 'Exn _ m _ := e in m.
Definition exn_cause (e : exn) : option exn := let 'Exn _ _ c := e in c.

(** [except Exception]: does the clause catch [e]? *)
Definition is_Exception (e : exn) : bool :=
  match exn_kind_of e with NotAnException _ => false | _ => true end.

(** [except AttributeError]: does the clause catch [e]? *)
Definition is_AttributeError (e : exn) : bool :=
  match exn_kind_of e with AttributeError => true | _ => false end.

Inductive result (A : Type) : Type :=
| Ok (a : A)
| Raise (e : exn).
Arguments Ok {A} a.
Arguments Raise {A} e.

(** ** The objects of the store *)

(** What a Component hands to the Mediator as its first argument: itself
    or its display name. *)
Inductive Reference : Type :=
| RefComponent (self : nat)
| RefName (name : string).

(** The change record the widget builds for its observers:
    [Bunch(name=..., old=..., new=..., owner=widget, type="change")]. *)
Record Change : Type := mkChange {
  ch_name : string;
  ch_old : pyval;
  ch_new : pyval;
  ch_owner : nat;
  ch_type : string
}.

(** The callables this module registers on a widget: the bound method
    [self.observe_handler] of a Component, and the closure [on_click] that
    [__new__] makes for a Button. *)
Inductive observer : Type :=
| ObserveHandler (self : nat).

Inductive click_callback : Type :=
| OnClick.

Global Instance observer_eq_dec : EqDecision observer.
Proof. solve_decision. Defined.

(** A widget, through the part of the toolkit that the Component uses:
    - [type_name] is [type(widget).__name__];
    - [is_button] is [isinstance(widget, widgets.Button)];
    - [trait_values] holds the traits and their current values, and
      [trait_validate] is the validation a trait applies to a value before
      it stores it ([None]: the value is refused; validation may also store
      another value than the one given, as casting and clamping traits do);
    - [attrs] are the other attributes [getattr] finds (methods, properties,
      plain instance attributes);
    - [trait_notifiers] are the observers by trait name, in registration
      order;
    - [click_handlers] are the click callbacks of a Button. *)
Record Widget : Type := mkWidget {
  type_name : string;
  is_button : bool;
  trait_values : gmap string pyval;
  trait_validate : string -> pyval -> option pyval;
  attrs : gmap string pyval;
  trait_notifiers : gmap string (list observer);
  click_handlers : list click_callback
}.

(** A Component instance.  [object.__new__] makes it without attributes;
    [__init__] sets them one by one, so each is optional here. *)
Record CompObj : Type := mkCompObj {
  co_mediator : option nat;
  co_widget : option nat;
  co_widget_name : option string;
  co_reference : option Reference
}.

Definition empty_object : CompObj := mkCompObj None None None None.

(** ** The Mediator *)

(** The Mediator is an abstract collaborator: one operation, [notify], of
    which the Component knows nothing but the call.  [MS] is the state of
    the Mediators of the program; [notify m reference change] is the call
    on Mediator [m], which changes that state and returns a value or
    raises.  The reaction of a Mediator is confined to this state: a
    Mediator that writes to widgets while it is being notified re-enters
    the operations below, and that is left out of the model. *)
Class Mediator (MS : Type) : Type :=
  notify : nat -> Reference -> Change -> MS -> MS * result pyval.

(** ** The store *)

(** [calls] is the trace of the [notify] calls made so far, oldest first:
    which Mediator, and with which two arguments. *)
Record World (MS : Type) : Type := mkWorld {
  widgets : gmap nat Widget;
  comps : gmap nat CompObj;
  mstate : MS;
  calls : list (nat * Reference * Change)
}.
Arguments mkWorld {MS} _ _ _ _.
Arguments widgets {MS} _.
Arguments comps {MS} _.
Arguments mstate {MS} _.
Arguments calls {MS} _.

(** Computations on the store that return or raise.  A raise keeps the
    store as the computation left it. *)
Definition Py (MS A : Type) : Type := World MS -> World MS * result A.

Definition ret {MS A} (a : A) : Py MS A := fun s => (s, Ok a).

Definition raise {MS A} (e : exn) : Py MS A := fun s => (s, Raise e).

Definition bind {MS A B} (c : Py MS A) (k : A -> Py MS B) : Py MS B :=
  fun s => match c s with
           | (s', Ok a) => k a s'
           | (s', Raise e) => (s', Raise e)
           end.

(** [try: c  except AttributeError as e: h e] *)
Definition try_except_AttributeError {MS A}
    (c : Py MS A) (h : exn -> Py MS A) : Py MS A :=
  fun s => match c s with
           | (s', Ok a) => (s', Ok a)
           | (s', Raise e) => if is_AttributeError e then h e s' else (s', Raise e)
           end.

(** What [try: c  except Exception: ...] makes of an outcome: an
    exception that derives from [Exception] is caught, any other goes
    on. *)
Definition through_except_Exception {A} (r : result A) : result unit :=
  match r with
  | Ok _ => Ok tt
  | Raise e => if is_Exception e then Ok tt else Raise e
  end.

(** [try: c  except Exception: pass] *)
Definition try_except_Exception {MS A} (c : Py MS A) : Py MS unit :=
  fun s => (fst (c s), through_except_Exception (snd (c s))).

(** A caller that goes on whatever [c] raises: the store [c] leaves, and
    no outcome. *)
Definition outcome_dropped {MS A} (c : Py MS A) : Py MS unit :=
  fun s => (fst (c s), Ok tt).

Definition lift {MS A} (r : result A) : Py MS A := fun s => (s, r).

Declare Scope py_scope.
Delimit Scope py_scope with py.
Notation "'let*' x := c 'in' k" := (bind c (fun x => k))
  (at level 10, x name, c at level 100, k at level 200,
   format "'[v' 'let*'  x  :=  c  'in' '/' k ']'") : py_scope.
Local Open Scope py_scope.

Fixpoint mapM {MS A B} (f : A -> Py MS B) (l : list A) : Py MS (list B) :=
  match l with
  | [] => ret []
  | a :: l' => let* b := f a in let* bs := mapM f l' in ret (b :: bs)
  end.

(** ** The widget toolkit, as the Component uses it *)

(** Functional updates of the records. *)
Definition with_trait_values (f : gmap string pyval -> gmap string pyval)
    (w : Widget) : Widget :=
  mkWidget (type_name w) (is_button w) (f (trait_values w)) (trait_validate w)
           (attrs w) (trait_notifiers w) (click_handlers w).

Definition with_trait_validate
    (f : (string -> pyval -> option pyval) -> string -> pyval -> option pyval)
    (w : Widget) : Widget :=
  mkWidget (type_name w) (is_button w) (trait_values w) (f (trait_validate w))
           (attrs w) (trait_notifiers w) (click_handlers w).

Definition with_attrs (f : gmap string pyval -> gmap string pyval)
    (w : Widget) : Widget :=
  mkWidget (type_name w) (is_button w) (trait_values w) (trait_validate w)
           (f (attrs w)) (trait_notifiers w) (click_handlers w).

Definition with_trait_notifiers
    (f : gmap string (list observer) -> gmap string (list observer))
    (w : Widget) : Widget :=
  mkWidget (type_name w) (is_button w) (trait_values w) (trait_validate w)
           (attrs w) (f (trait_notifiers w)) (click_handlers w).

Definition with_click_handlers
    (f : list click_callback -> list click_callback) (w : Widget) : Widget :=
  mkWidget (type_name w) (is_button w) (trait_values w) (trait_validate w)
           (attrs w) (trait_notifiers w) (f (click_handlers w)).

(** [widget.has_trait(name)] *)
Definition has_trait (w : Widget) (name : string) : bool :=
  match trait_values w !! name with Some _ => true | None => false end.

(** [hasattr(widget, name)]: a trait, or any other attribute. *)
Definition hasattr (w : Widget) (name : string) : bool :=
  has_trait w name || match attrs w !! name with Some _ => true | None => false end.

Definition no_attribute (w : Widget) (name : string) : exn :=
  Exn AttributeError
      ("'" +:+ type_name w +:+ "' object has no attribute '" +:+ name +:+ "'") None.

(** [getattr(widget, name)]: a trait gives its current value (the trait is a
    data descriptor of the class, it is found first), another attribute its
    value, an unknown name raises AttributeError. *)
Definition getattr (w : Widget) (name : string) : result pyval :=
  match trait_values w !! name with
  | Some v => Ok v
  | None =>
      match attrs w !! name with
      | Some v => Ok v
      | None => Raise (no_attribute w name)
      end
  end.

(** What [Bool] accepts: a bool, or the ints 0 and 1, which it stores as
    bools. *)
Definition validate_Bool (v : pyval) : option pyval :=
  match v with
  | VBool b => Some (VBool b)
  | VInt 1 => Some (VBool true)
  | VInt 0 => Some (VBool false)
  | _ => None
  end.

(** [HasTraits.add_traits(widget, value=Bool(False))]: the class of the
    widget becomes a subclass of the same name with a trait [value] that
    validates as a [Bool], so [type_name] and [is_button] stay.  The values
    the instance holds are not touched: a value held under [value] stays,
    and without one the trait gives its default, [False]. *)
Definition add_traits_value_Bool (w : Widget) : Widget :=
  with_trait_validate
    (fun old name v => if String.eqb name "value" then validate_Bool v else old name v)
    (with_trait_values
       (fun values =>
          match values !! "value" with
          | Some _ => values
          | None => <["value" := VBool false]> values
          end) w).

(** [widget.on_click(callback)]: the callback joins the click callbacks.
    Every call of [__new__] makes a closure of its own, so the dispatcher
    never finds it registered already. *)
Definition register_on_click (cb : click_callback) (w : Widget) : Widget :=
  with_click_handlers (fun cbs => cbs ++ [cb]) w.

(** One step of [widget.observe(handler, names=names)]: the handler is
    appended to the observers of [name] unless it is among them. *)
Definition add_notifier (h : observer) (w : Widget) (name : string) : Widget :=
  let nlist := default [] (trait_notifiers w !! name) in
  if decide (h ∈ nlist) then w
  else with_trait_notifiers (insert name (nlist ++ [h])) w.

Definition observe_names (h : observer) (names : list string) (w : Widget) : Widget :=
  foldl (add_notifier h) w names.

(** [widget_name or f"{type(widget).__name__}Component"] *)
Definition default_name (w : Widget) : string := type_name w +:+ "Component".

Definition name_or_default (widget_name : option string) (w : Widget) : string :=
  match widget_name with
  | Some s => if py_truthy (VStr s) then s else default_name w
  | None => default_name w
  end.

(** ** Operations on the store *)

Section Model.

Context {MS : Type} {mediators : Mediator MS}.

(** [repr] is Python's own; the message of the configuration error embeds
    [repr(names)]. *)
Variable repr : pyval -> string.

Definition with_widgets (f : gmap nat Widget -> gmap nat Widget)
    (s : World MS) : World MS :=
  mkWorld (f (widgets s)) (comps s) (mstate s) (calls s).

Definition with_comps (f : gmap nat CompObj -> gmap nat CompObj)
    (s : World MS) : World MS :=
  mkWorld (widgets s) (f (comps s)) (mstate s) (calls s).

(** A reference to an object the store does not hold; no Python program
    has one. *)
Definition dangling : exn := Exn (OtherError "ReferenceError") "no such object" None.

Definition get_widget (wref : nat) : Py MS Widget :=
  fun s => match widgets s !! wref with
           | Some w => (s, Ok w)
           | None => (s, Raise dangling)
           end.

Definition update_widget (wref : nat) (f : Widget -> Widget) : Py MS unit :=
  fun s => match widgets s !! wref with
           | Some w => (with_widgets (insert wref (f w)) s, Ok tt)
           | None => (s, Raise dangling)
           end.

Definition get_comp (self : nat) : Py MS CompObj :=
  fun s => match comps s !! self with
           | Some co => (s, Ok co)
           | None => (s, Raise dangling)
           end.

Definition update_comp (self : nat) (f : CompObj -> CompObj) : Py MS unit :=
  fun s => match comps s !! self with
           | Some co => (with_comps (insert self (f co)) s, Ok tt)
           | None => (s, Raise dangling)
           end.

(** [self.<name>] on a Component: AttributeError until [__init__] has set
    the attribute. *)
Definition attribute {A} (field : CompObj -> option A) (name : string)
    (self : nat) : Py MS A :=
  let* co := get_comp self in
  match field co with
  | Some a => ret a
  | None =>
      raise (Exn AttributeError
               ("'Component' object has no attribute '" +:+ name +:+ "'") None)
  end.

(** [mediator.notify(reference, change)]: the call is traced, then the
    Mediator runs. *)
Definition call_notify (m : nat) (reference : Reference) (change : Change)
    : Py MS pyval :=
  fun s =>
    let '(ms, r) := notify m reference change (mstate s) in
    (mkWorld (widgets s) (comps s) ms (calls s ++ [(m, reference, change)]), r).

(** [Component.observe_handler(self, change)]:
    [self._mediator.notify(self._reference, change)], and nothing is
    returned. *)
Definition observe_handler (self : nat) (change : Change) : Py MS pyval :=
  let* m := attribute co_mediator "_Component__mediator" self in
  let* reference := attribute co_reference "_Component__reference" self in
  let* _ := call_notify m reference change in
  ret VNone.

Definition call_observer (h : observer) (change : Change) : Py MS pyval :=
  match h with
  | ObserveHandler self => observe_handler self change
  end.

(** [_notify_observers]: the observers of the changed trait are called in
    registration order; the toolkit lets their exceptions through, so the
    first that raises ends the round. *)
Fixpoint notify_observers (hs : list observer) (change : Change) : Py MS unit :=
  match hs with
  | [] => ret tt
  | h :: hs' =>
      let* _ := call_observer h change in
      notify_observers hs' change
  end.

Definition notify_change (wref : nat) (change : Change) : Py MS unit :=
  let* w := get_widget wref in
  notify_observers (default [] (trait_notifiers w !! ch_name change)) change.

Definition trait_error (msg : string) : exn := Exn TraitError msg None.

(** [TraitType.set(widget, value)]: validate, store, and tell the observers
    when the stored value is not equal to the one before.  The validation
    is the one of the trait, a function of the value: validators of the
    instance that assign other traits while one trait is written (the
    bounds of a slider) are not in this model, so nothing here speaks of
    what a write to one trait does to another. *)
Definition trait_set (wref : nat) (name : string) (value : pyval) : Py MS unit :=
  let* w := get_widget wref in
  match trait_values w !! name with
  | None => raise (trait_error ("no trait named " +:+ name))
  | Some old =>
      match trait_validate w name value with
      | None => raise (trait_error ("invalid value for the trait " +:+ name))
      | Some new =>
          let* _ := update_widget wref (with_trait_values (insert name new)) in
          if py_eqb old new then ret tt
          else notify_change wref (mkChange name old new wref "change")
      end
  end.

(** [widget.set_trait(name, value)]: TraitError when [name] is not a trait,
    else the trait sets the value. *)
Definition set_trait (wref : nat) (name : string) (value : pyval) : Py MS unit :=
  let* w := get_widget wref in
  if has_trait w name then trait_set wref name value
  else raise (trait_error ("no trait named " +:+ name)).

(** [widget.<name> = value]: a trait sets the value, any other name becomes
    a plain attribute. *)
Definition setattr (wref : nat) (name : string) (value : pyval) : Py MS unit :=
  let* w := get_widget wref in
  if has_trait w name then trait_set wref name value
  else update_widget wref (with_attrs (insert name value)).

(** The closure of [__new__]: [w.value = not w.value]. *)
Definition on_click (wref : nat) : Py MS pyval :=
  let* w := get_widget wref in
  let* v := lift (getattr w "value") in
  let* _ := setattr wref "value" (py_not v) in
  ret VNone.

Definition call_click_callback (cb : click_callback) (wref : nat) : Py MS pyval :=
  match cb with
  | OnClick => on_click wref
  end.

(** The click dispatcher of the toolkit calls every callback with the
    button, each under [try ... except Exception]: an [Exception] of a
    callback is reported and the dispatcher goes on with the next, any
    other exception leaves the dispatcher and ends the round. *)
Fixpoint dispatch_click (cbs : list click_callback) (wref : nat) : Py MS unit :=
  match cbs with
  | [] => ret tt
  | cb :: cbs' =>
      let* _ := try_except_Exception (call_click_callback cb wref) in
      dispatch_click cbs' wref
  end.

(** [button.click()] *)
Definition click (wref : nat) : Py MS unit :=
  let* w := get_widget wref in
  dispatch_click (click_handlers w) wref.

(** [operator.itemgetter(item, *items)(obj)]: with one item the result is
    [obj[item]]; with several, the tuple of the lookups, made in order. *)
Definition itemgetter (item : string) (items : list string)
    (getitem : string -> Py MS pyval) : Py MS pyval :=
  match items with
  | [] => getitem item
  | _ :: _ =>
      let* vs := mapM getitem (item :: items) in
      ret (VTuple vs)
  end.

(** ** The Component *)

(** [object.__new__(cls)]: a new object, without attributes, under an
    identity no Component of the store has. *)
Definition new_object : Py MS nat :=
  fun s =>
    let self := fresh (dom (comps s)) in
    (with_comps (insert self empty_object) s, Ok self).

(** [Component.__new__(cls, **kwargs)], [wref] being [kwargs["widget"]]. *)
Definition __new__ (wref : nat) : Py MS nat :=
  let* w := get_widget wref in
  let* _ :=
    if is_button w then
      let* _ := update_widget wref add_traits_value_Bool in
      update_widget wref (register_on_click OnClick)
    else ret tt in
  new_object.

(** [self[trait]] *)
Definition __getitem__ (self : nat) (trait : string) : Py MS pyval :=
  let* wref := attribute co_widget "widget" self in
  let* w := get_widget wref in
  lift (getattr w trait).

(** [self[trait] = value] *)
Definition __setitem__ (self : nat) (trait : string) (value : pyval) : Py MS pyval :=
  let* wref := attribute co_widget "widget" self in
  let* _ := set_trait wref trait value in
  ret VNone.

(** [trait in self] *)
Definition __contains__ (self : nat) (trait : string) : Py MS bool :=
  let* wref := attribute co_widget "widget" self in
  let* w := get_widget wref in
  ret (has_trait w trait).

(** The call of a Component on the names [names], spread as its positional
    arguments.  The signature is [__call__(self, trait, *args)]: a call
    without a name is refused before the body runs. *)
Definition __call__ (self : nat) (names : list string) : Py MS pyval :=
  match names with
  | [] =>
      raise (Exn TypeError
               "__call__() missing 1 required positional argument: 'trait'" None)
  | trait :: args => itemgetter trait args (__getitem__ self)
  end.

(** [str(self)] *)
Definition __str__ (self : nat) : Py MS string :=
  attribute co_widget_name "widget_name" self.

Definition set_mediator (m : nat) (co : CompObj) : CompObj :=
  mkCompObj (Some m) (co_widget co) (co_widget_name co) (co_reference co).
Definition set_widget (wref : nat) (co : CompObj) : CompObj :=
  mkCompObj (co_mediator co) (Some wref) (co_widget_name co) (co_reference co).
Definition set_widget_name (n : string) (co : CompObj) : CompObj :=
  mkCompObj (co_mediator co) (co_widget co) (Some n) (co_reference co).
Definition set_reference (r : Reference) (co : CompObj) : CompObj :=
  mkCompObj (co_mediator co) (co_widget co) (co_widget_name co) (Some r).

Definition names_message (names : list string) : string :=
  "check 'names' parameter: " +:+ repr (VTuple (VStr <$> names)).

(** [Component.__init__(self, mediator, widget, widget_name, names,
    notify_self)].  [super().__init__()] sets up no attribute this module
    reads. *)
Definition __init__ (self mediator widget : nat) (widget_name : option string)
    (names : list string) (notify_self : bool) : Py MS pyval :=
  let* _ := update_comp self (set_mediator mediator) in
  let* _ := update_comp self (set_widget widget) in
  let* _ :=
    try_except_AttributeError
      (__call__ self names)
      (fun e => raise (Exn ValueError (names_message names) (Some e))) in
  let* wref := attribute co_widget "widget" self in
  let* _ := update_widget wref (observe_names (ObserveHandler self) names) in
  let* w := get_widget widget in
  let* _ := update_comp self (set_widget_name (name_or_default widget_name w)) in
  let* name := attribute co_widget_name "widget_name" self in
  let* _ :=
    update_comp self
      (set_reference (if notify_self then RefComponent self else RefName name)) in
  ret VNone.

(** [Component(mediator=..., widget=..., widget_name=..., names=...,
    notify_self=...)]: [__new__], then [__init__] on the new object, which
    is the value of the call. *)
Definition Component (mediator widget : nat) (widget_name : option string)
    (names : list string) (notify_self : bool) : Py MS nat :=
  let* self := __new__ widget in
  let* _ := __init__ self mediator widget widget_name names notify_self in
  ret self.

End Model.

(** ** Reading aids for the statements *)

(** The widget as [__new__] leaves it, which is the widget [__init__]
    receives: a Button has got its [value] trait and its click callback,
    any other widget is as it was. *)
Definition widget_as_wrapped (w : Widget) : Widget :=
  if is_button w then register_on_click OnClick (add_traits_value_Bool w) else w.

(** The lookups [itemgetter] makes on a widget, in order, up to the first
    that fails. *)
Fixpoint getattrs (w : Widget) (names : list string) : result (list pyval) :=
  match names with
  | [] => Ok []
  | n :: names' =>
      match getattr w n with
      | Ok v =>
          match getattrs w names' with
          | Ok vs => Ok (v :: vs)
          | Raise e => Raise e
          end
      | Raise e => Raise e
      end
  end.

(** The outcome of the multi-read on a widget, without the store: no name
    is a TypeError, one name gives the value itself, several names give
    the tuple. *)
Definition call_result (w : Widget) (names : list string) : result pyval :=
  match names with
  | [] => Raise (Exn TypeError
                   "__call__() missing 1 required positional argument: 'trait'" None)
  | [n] => getattr w n
  | _ => match getattrs w names with
         | Ok vs => Ok (VTuple vs)
         | Raise e => Raise e
         end
  end.

(** The Component [__init__] leaves when it returns. *)
Definition built (m wref : nat) (name : string) (reference : Reference) : CompObj :=
  mkCompObj (Some m) (Some wref) (Some name) (Some reference).

(** The reference [__init__] keeps for the Mediator. *)
Definition reference_of (self : nat) (notify_self : bool) (name : string) : Reference :=
  if notify_self then RefComponent self else RefName name.

(** What a handler makes of the outcome of [notify]: the value is dropped,
    an exception goes on. *)
Definition discard {A B} (b : B) (r : result A) : result B :=
  match r with
  | Ok _ => Ok b
  | Raise e => Raise e
  end.

(** What a program does to a widget or through a Component after the
    construction: bracket writes, attribute assignments, clicks. *)
Inductive action : Type :=
| ASetItem (self : nat) (trait : string) (value : pyval)
| ASetAttr (wref : nat) (name : string) (value : pyval)
| AClick (wref : nat).

Definition run_action {MS} `{!Mediator MS} (a : action) : Py MS unit :=
  match a with
  | ASetItem self trait value => outcome_dropped (__setitem__ self trait value)
  | ASetAttr wref name value => outcome_dropped (setattr wref name value)
  | AClick wref => outcome_dropped (click wref)
  end.

(** The store after a sequence of such actions, the caller going on
    whatever an action raises. *)
Definition run_actions {MS} `{!Mediator MS} (acts : list action) (s : World MS)
    : World MS :=
  foldl (fun s a => fst (run_action a s)) s acts.

(** ** Exceptions that are Exceptions *)

(** [c] raises nothing but exceptions that derive from [Exception]. *)
Definition only_Exceptions {MS A} (c : Py MS A) : Prop :=
  forall s e, snd (c s) = Raise e -> is_Exception e = true.

(** The Mediators raise nothing but exceptions that derive from
    [Exception]: no [KeyboardInterrupt], no [SystemExit]. *)
Definition mediators_raise_Exceptions {MS} `{!Mediator MS} : Prop :=
  forall m reference change ms e,
    snd (notify m reference change ms) = Raise e -> is_Exception e = true.

(** ** Later stores *)

(** [w'] is a later state of the widget [w]: writes have gone through its
    traits and plain attributes, nothing else has changed.  A trait holds
    the value it held in [w] or a value its validation has let through. *)
Definition widget_evolved (w w' : Widget) : Prop :=
  type_name w' = type_name w /\
  is_button w' = is_button w /\
  trait_validate w' = trait_validate w /\
  trait_notifiers w' = trait_notifiers w /\
  click_handlers w' = click_handlers w /\
  (forall n, trait_values w' !! n = None <-> trait_values w !! n = None) /\
  (forall n v', trait_values w' !! n = Some v' ->
                trait_values w !! n = Some v' \/
                exists v, trait_validate w n v = Some v').

(** [s'] is a later state of the store [s]: the same Components, and every
    widget in a later state. *)
Definition store_evolved {MS} (s s' : World MS) : Prop :=
  comps s' = comps s /\
  forall x, option_Forall2 widget_evolved (widgets s !! x) (widgets s' !! x).

(** ** A small program to run the model on *)

(** A Mediator that counts its calls; it answers [1] to a change whose new
    value is true, and raises on any other. *)
Global Instance example_mediator : Mediator nat :=
  fun _ _ change n =>
    (S n,
     if py_truthy (ch_new change) then Ok (VInt 1)
     else Raise (Exn (OtherError "RuntimeError") "refused" None)).

(** [repr] for the values of the examples: strings without quotes or
    escapes in them, tuples with the comma of the one-element tuple. *)
Fixpoint example_repr (v : pyval) : string :=
  match v with
  | VNone => "None"
  | VBool b => if b then "True" else "False"
  | VInt z => NilZero.string_of_int (Z.to_int z)
  | VStr s => "'" +:+ s +:+ "'"
  | VTuple vs =>
      "(" +:+
      match vs with
      | [] => ""
      | [v] => example_repr v +:+ ","
      | v :: vs' =>
          example_repr v +:+
          (fix rest (l : list pyval) : string :=
             match l with
             | [] => ""
             | x :: l' => ", " +:+ example_repr x +:+ rest l'
             end) vs'
      end +:+ ")"
  | VObj _ => "<object>"
  end.

(** A checkbox: the traits [value] and [description], and the methods a
    widget has, of which [observe] is one. *)
Definition checkbox : Widget :=
  mkWidget "Checkbox" false
    {[ "value" := VBool false; "description" := VStr "" ]}
    (fun name v =>
       match v with
       | VBool _ => if String.eqb name "value" then Some v else None
       | VStr _ => if String.eqb name "description" then Some v else None
       | _ => None
       end)
    {[ "observe" := VObj 0; "set_trait" := VObj 1; "has_trait" := VObj 2 ]}
    ∅ [].

(** A button: no [value] trait of its own. *)
Definition button : Widget :=
  mkWidget "Button" true
    {[ "description" := VStr "" ]}
    (fun name v =>
       match v with
       | VStr _ => if String.eqb name "description" then Some v else None
       | _ => None
       end)
    {[ "observe" := VObj 0; "on_click" := VObj 3; "click" := VObj 4 ]}
    ∅ [].

(** The store before any Component is made: the checkbox is object 0, the
    button object 1. *)
Definition example_world : World nat :=
  mkWorld {[ 0 := checkbox; 1 := button ]} ∅ 0 [].

(** [Component(mediator=M, widget=checkbox)], with the defaults, M being
    Mediator 7: the store it leaves. *)
Definition checkbox_world : World nat :=
  fst (Component example_repr 7 0 None ["value"] false example_world).

(** [Component(mediator=M, widget=button, notify_self=True)]. *)
Definition button_world : World nat :=
  fst (Component example_repr 7 1 None ["value"] true example_world).

(** A Mediator that is interrupted whenever it is told. *)
Global Instance interrupted_mediator : Mediator unit :=
  fun _ _ _ u => (u, Raise (Exn (NotAnException "KeyboardInterrupt") "" None)).

(** The button alone, as object 1, under that Mediator. *)
Definition interrupted_world : World unit :=
  mkWorld {[ 1 := button ]} ∅ tt [].

(** Two checkboxes, objects 0 and 1, and no Component yet. *)
Definition two_checkboxes : World nat :=
  mkWorld {[ 0 := checkbox; 1 := checkbox ]} ∅ 0 [].

(** * Proofs *)

Section Proofs.

Context {MS : Type} {mediators : Mediator MS}.
Variable repr : pyval -> string.

Implicit Types (s : World MS) (w : Widget) (co : CompObj).

(** ** Steps of the store monad *)

Lemma bind_ok {A B} (c : Py MS A) (k : A -> Py MS B) s s' a :
  c s = (s', Ok a) -> bind c k s = k a s'.
Proof. intros H. unfold bind. rewrite H. reflexivity. Qed.

Lemma bind_raise {A B} (c : Py MS A) (k : A -> Py MS B) s s' e :
  c s = (s', Raise e) -> bind c k s = (s', Raise e).
Proof. intros H. unfold bind. rewrite H. reflexivity. Qed.

Lemma get_widget_ok s wref w :
  widgets s !! wref = Some w -> get_widget wref s = (s, Ok w).
Proof. intros H. unfold get_widget. rewrite H. reflexivity. Qed.

Lemma update_widget_ok s wref w f :
  widgets s !! wref = Some w ->
  update_widget wref f s = (with_widgets (insert wref (f w)) s, Ok tt).
Proof. intros H. unfold update_widget. rewrite H. reflexivity. Qed.

Lemma get_comp_ok s self co :
  comps s !! self = Some co -> get_comp self s = (s, Ok co).
Proof. intros H. unfold get_comp. rewrite H. reflexivity. Qed.

Lemma update_comp_ok s self co f :
  comps s !! self = Some co ->
  update_comp self f s = (with_comps (insert self (f co)) s, Ok tt).
Proof. intros H. unfold update_comp. rewrite H. reflexivity. Qed.

Lemma attribute_ok {A} (field : CompObj -> option A) name s self co a :
  comps s !! self = Some co -> field co = Some a ->
  attribute field name self s = (s, Ok a).
Proof.
  intros Hc Hf. unfold attribute.
  rewrite (bind_ok _ _ _ _ _ (get_comp_ok _ _ _ Hc)), Hf. reflexivity.
Qed.

(** ** Reads through the Component *)

Lemma getitem_spec s self co wref w n :
  comps s !! self = Some co -> co_widget co = Some wref ->
  widgets s !! wref = Some w ->
  __getitem__ self n s = (s, getattr w n).
Proof.
  intros Hc Hw Hs. unfold __getitem__.
  rewrite (bind_ok _ _ _ _ _ (attribute_ok co_widget _ _ _ _ _ Hc Hw)).
  rewrite (bind_ok _ _ _ _ _ (get_widget_ok _ _ _ Hs)).
  reflexivity.
Qed.

Lemma mapM_getitem_spec s self co wref w names :
  comps s !! self = Some co -> co_widget co = Some wref ->
  widgets s !! wref = Some w ->
  mapM (__getitem__ self) names s = (s, getattrs w names).
Proof.
  intros Hc Hw Hs. induction names as [|n names IH]; simpl; [reflexivity|].
  unfold bind at 1. rewrite (getitem_spec s self co wref w n Hc Hw Hs).
  destruct (getattr w n) as [v|e]; [|reflexivity].
  unfold bind. rewrite IH. destruct (getattrs w names); reflexivity.
Qed.

Lemma call_spec s self co wref w names :
  comps s !! self = Some co -> co_widget co = Some wref ->
  widgets s !! wref = Some w ->
  __call__ self names s = (s, call_result w names).
Proof.
  intros Hc Hw Hs. destruct names as [|n [|n' names]]; unfold __call__, itemgetter.
  - reflexivity.
  - eapply getitem_spec; eassumption.
  - unfold bind at 1.
    rewrite (mapM_getitem_spec s self co wref w (n :: n' :: names) Hc Hw Hs).
    cbv [call_result].
    destruct (getattrs w (n :: n' :: names)); reflexivity.
Qed.

(** ** Construction *)

Lemma new_spec s wref w :
  widgets s !! wref = Some w ->
  __new__ wref s =
    (mkWorld (<[wref := widget_as_wrapped w]> (widgets s))
             (<[fresh (dom (comps s)) := empty_object]> (comps s))
             (mstate s) (calls s),
     Ok (fresh (dom (comps s)))).
Proof.
  intros Hw. unfold __new__, widget_as_wrapped.
  rewrite (bind_ok _ _ _ _ _ (get_widget_ok _ _ _ Hw)).
  destruct (is_button w).
  - rewrite (bind_ok _ _ _ (with_widgets
               (insert wref (register_on_click OnClick (add_traits_value_Bool w))) s) tt).
    + unfold new_object, with_comps, with_widgets. reflexivity.
    + rewrite (bind_ok _ _ _ _ _ (update_widget_ok _ _ _ _ Hw)).
      erewrite update_widget_ok by (cbn; apply lookup_insert_eq).
      unfold with_widgets; cbn. rewrite insert_insert_eq. reflexivity.
  - rewrite (bind_ok _ _ _ s tt) by reflexivity.
    unfold new_object, with_comps; cbn. rewrite (insert_id _ _ _ Hw).
    reflexivity.
Qed.

Lemma fresh_comp_unused s : comps s !! fresh (dom (comps s)) = None.
Proof. apply not_elem_of_dom, is_fresh. Qed.

Lemma add_notifier_type_name h w n : type_name (add_notifier h w n) = type_name w.
Proof. unfold add_notifier. case_decide; reflexivity. Qed.

Lemma observe_names_type_name h names w :
  type_name (observe_names h names w) = type_name w.
Proof.
  unfold observe_names. revert w.
  induction names as [|n names IH]; intros w; simpl; [reflexivity|].
  rewrite IH. apply add_notifier_type_name.
Qed.

Lemma init_spec s self co m wref w wn names ns :
  comps s !! self = Some co ->
  widgets s !! wref = Some w ->
  __init__ repr self m wref wn names ns s =
    match call_result w names with
    | Ok _ =>
        (mkWorld (<[wref := observe_names (ObserveHandler self) names w]> (widgets s))
                 (<[self := built m wref (name_or_default wn w)
                              (reference_of self ns (name_or_default wn w))]> (comps s))
                 (mstate s) (calls s),
         Ok VNone)
    | Raise e =>
        (mkWorld (widgets s)
                 (<[self := set_widget wref (set_mediator m co)]> (comps s))
                 (mstate s) (calls s),
         Raise (if is_AttributeError e
                then Exn ValueError (names_message repr names) (Some e)
                else e))
    end.
Proof.
  intros Hc Hw. unfold __init__.
  rewrite (bind_ok _ _ _ _ _ (update_comp_ok _ _ _ _ Hc)).
  erewrite bind_ok by (apply update_comp_ok; cbn; apply lookup_insert_eq).
  unfold with_comps at 1 2; cbn [comps widgets mstate calls].
  rewrite insert_insert_eq.
  set (s1 := mkWorld _ _ _ _).
  assert (Hc1 : comps s1 !! self = Some (set_widget wref (set_mediator m co)))
    by apply lookup_insert_eq.
  assert (Hw1 : widgets s1 !! wref = Some w) by exact Hw.
  unfold bind at 1, try_except_AttributeError.
  rewrite (call_spec s1 self _ wref w names Hc1 eq_refl Hw1).
  destruct (call_result w names) as [v|e].
  - rewrite (bind_ok _ _ _ _ _ (attribute_ok co_widget _ _ _ _ _ Hc1 eq_refl)).
    rewrite (bind_ok _ _ _ _ _ (update_widget_ok _ _ _ _ Hw1)).
    erewrite bind_ok by (apply get_widget_ok; cbn; apply lookup_insert_eq).
    erewrite bind_ok by (apply update_comp_ok; cbn; exact Hc1).
    erewrite bind_ok
      by (eapply attribute_ok; [cbn; apply lookup_insert_eq | reflexivity]).
    erewrite bind_ok by (apply update_comp_ok; cbn; apply lookup_insert_eq).
    unfold ret, with_comps, with_widgets; cbn.
    rewrite !insert_insert_eq.
    unfold name_or_default, default_name. rewrite observe_names_type_name.
    reflexivity.
  - destruct (is_AttributeError e); reflexivity.
Qed.

Lemma Component_spec s m wref w wn names ns :
  widgets s !! wref = Some w ->
  Component repr m wref wn names ns s =
    let w' := widget_as_wrapped w in
    let self := fresh (dom (comps s)) in
    match call_result w' names with
    | Ok _ =>
        (mkWorld (<[wref := observe_names (ObserveHandler self) names w']> (widgets s))
                 (<[self := built m wref (name_or_default wn w')
                              (reference_of self ns (name_or_default wn w'))]> (comps s))
                 (mstate s) (calls s),
         Ok self)
    | Raise e =>
        (mkWorld (<[wref := w']> (widgets s))
                 (<[self := mkCompObj (Some m) (Some wref) None None]> (comps s))
                 (mstate s) (calls s),
         Raise (if is_AttributeError e
                then Exn ValueError (names_message repr names) (Some e)
                else e))
    end.
Proof.
  intros Hw. unfold Component. cbv zeta.
  rewrite (bind_ok _ _ _ _ _ (new_spec s wref w Hw)).
  unfold bind at 1.
  erewrite init_spec;
    [ | cbn; apply lookup_insert_eq | cbn; apply lookup_insert_eq ].
  cbn [widgets comps mstate calls].
  destruct (call_result (widget_as_wrapped w) names) as [v|e].
  - unfold ret. rewrite !insert_insert_eq. reflexivity.
  - rewrite !insert_insert_eq. reflexivity.
Qed.

(** ** Lookups on a widget *)

Lemma getattr_missing w n :
  hasattr w n = false -> getattr w n = Raise (no_attribute w n).
Proof.
  unfold hasattr, has_trait, getattr.
  destruct (trait_values w !! n); [discriminate|].
  destruct (attrs w !! n); [discriminate|]. reflexivity.
Qed.

Lemma getattr_present w n :
  hasattr w n = true -> exists v, getattr w n = Ok v.
Proof.
  unfold hasattr, has_trait, getattr.
  destruct (trait_values w !! n); [eauto|].
  destruct (attrs w !! n); [eauto|discriminate].
Qed.

Lemma getattr_raises w n e :
  getattr w n = Raise e -> e = no_attribute w n.
Proof.
  unfold getattr.
  destruct (trait_values w !! n); [discriminate|].
  destruct (attrs w !! n); [discriminate|]. congruence.
Qed.

Lemma getattrs_raises w names e :
  getattrs w names = Raise e -> exists n, n ∈ names /\ e = no_attribute w n.
Proof.
  induction names as [|n names IH]; simpl; [discriminate|].
  destruct (getattr w n) as [v|e'] eqn:Hn.
  - destruct (getattrs w names) as [vs|e'']; [discriminate|].
    intros [= <-]. destruct (IH eq_refl) as (n' & Hin & ->).
    exists n'. split; [right; exact Hin | reflexivity].
  - intros [= <-]. exists n. split; [left | eapply getattr_raises; exact Hn].
Qed.

Lemma getattrs_missing w names n :
  n ∈ names -> hasattr w n = false -> exists e, getattrs w names = Raise e.
Proof.
  intros Hin Hno. induction Hin as [n names | n n' names Hin IH]; simpl.
  - rewrite (getattr_missing w n Hno). eauto.
  - destruct (getattr w n'); [|eauto].
    destruct (IH Hno) as [e ->]. eauto.
Qed.

Lemma getattrs_present w names :
  Forall (fun n => hasattr w n = true) names ->
  exists vs, getattrs w names = Ok vs /\
             Forall2 (fun n v => getattr w n = Ok v) names vs.
Proof.
  induction 1 as [|n names Hn _ IH]; simpl.
  - exists []. split; [reflexivity | constructor].
  - destruct (getattr_present w n Hn) as [v Hv].
    destruct IH as (vs & -> & Hvs). rewrite Hv.
    exists (v :: vs). split; [reflexivity | constructor; assumption].
Qed.

Lemma call_result_missing w names n :
  n ∈ names -> hasattr w n = false ->
  exists n', n' ∈ names /\ call_result w names = Raise (no_attribute w n').
Proof.
  intros Hin Hno.
  destruct (getattrs_missing w names n Hin Hno) as [e He].
  destruct (getattrs_raises w names e He) as (n' & Hin' & ->).
  exists n'. split; [exact Hin'|].
  destruct names as [|a [|b names]].
  - inversion Hin.
  - simpl in He. unfold call_result.
    destruct (getattr w a); [discriminate | congruence].
  - unfold call_result. rewrite He. reflexivity.
Qed.

Lemma call_result_present w names :
  names <> [] ->
  Forall (fun n => hasattr w n = true) names ->
  exists vs,
    Forall2 (fun n v => getattr w n = Ok v) names vs /\
    call_result w names = Ok (match vs with [v] => v | _ => VTuple vs end).
Proof.
  intros Hne Hall.
  destruct (getattrs_present w names Hall) as (vs & Hvs & HF).
  exists vs. split; [exact HF|].
  destruct names as [|a [|b names]]; [congruence | |].
  - inversion HF as [|? v ? vs' Ha HF']; subst. inversion HF'; subst.
    exact Ha.
  - unfold call_result. rewrite Hvs.
    inversion HF as [|? v ? vs' Ha HF']; subst.
    inversion HF' as [|? v' ? vs'' Hb HF'']; subst. reflexivity.
Qed.

(** ** The wrapped widget *)

Lemma widget_as_wrapped_notifiers w :
  trait_notifiers (widget_as_wrapped w) = trait_notifiers w.
Proof. unfold widget_as_wrapped. destruct (is_button w); reflexivity. Qed.

Lemma widget_as_wrapped_type_name w :
  type_name (widget_as_wrapped w) = type_name w.
Proof. unfold widget_as_wrapped. destruct (is_button w); reflexivity. Qed.

(** ** Construction with names the widget has *)

(** X15.  With at least one name, all of them attributes of the widget
    that [__init__] validates, the construction returns the new Component,
    under an identity that is fresh in the store. *)
Lemma construction_succeeds s m wref w wn names ns :
  widgets s !! wref = Some w ->
  names <> [] ->
  Forall (fun n => hasattr (widget_as_wrapped w) n = true) names ->
  exists s1, Component repr m wref wn names ns s = (s1, Ok (fresh (dom (comps s)))).
Proof.
  intros Hw Hne Hall.
  rewrite (Component_spec s m wref w wn names ns Hw). cbv zeta.
  destruct (call_result_present _ names Hne Hall) as (vs & _ & ->).
  eauto.
Qed.

(** ** Construction with names the widget lacks *)

(** C1.  For every widget and every names tuple of which one name is not
    an attribute of the widget that [__init__] validates (the widget as
    [__new__] hands it over), the construction raises a ValueError; its
    message is the text [check 'names' parameter: ] followed by the [repr]
    of the names tuple; it is chained to an AttributeError; the observers
    of the widget are those it had, and no other widget is touched. *)
Theorem construction_rejects_unknown_names s m wref w wn names ns :
  widgets s !! wref = Some w ->
  (exists n, n ∈ names /\ hasattr (widget_as_wrapped w) n = false) ->
  exists s' cause,
    Component repr m wref wn names ns s =
      (s', Raise (Exn ValueError
                    ("check 'names' parameter: " +:+ repr (VTuple (VStr <$> names)))
                    (Some cause))) /\
    exn_kind_of cause = AttributeError /\
    (exists w', widgets s' !! wref = Some w' /\
                trait_notifiers w' = trait_notifiers w) /\
    (forall x, x <> wref -> widgets s' !! x = widgets s !! x) /\
    calls s' = calls s.
Proof.
  intros Hw (n & Hin & Hno).
  destruct (call_result_missing _ _ _ Hin Hno) as (n' & _ & Hcall).
  rewrite (Component_spec s m wref w wn names ns Hw). cbv zeta.
  rewrite Hcall. cbn [is_AttributeError no_attribute exn_kind_of].
  eexists _, _. split; [reflexivity|].
  split; [reflexivity|]. cbn [widgets calls].
  split; [|split; [|reflexivity]].
  - eexists. split; [apply lookup_insert_eq | apply widget_as_wrapped_notifiers].
  - intros x Hx. apply lookup_insert_ne. congruence.
Qed.

(** C9.  With the empty names tuple the construction raises the TypeError
    of the call without arguments, which no handler of [__init__]
    catches; the observers of the widget are those it had. *)
Theorem construction_with_no_names_is_a_TypeError s m wref w wn ns :
  widgets s !! wref = Some w ->
  exists s' msg,
    Component repr m wref wn [] ns s = (s', Raise (Exn TypeError msg None)) /\
    (exists w', widgets s' !! wref = Some w' /\
                trait_notifiers w' = trait_notifiers w) /\
    (forall x, x <> wref -> widgets s' !! x = widgets s !! x) /\
    calls s' = calls s.
Proof.
  intros Hw.
  rewrite (Component_spec s m wref w wn [] ns Hw). cbv zeta.
  cbn [call_result is_AttributeError exn_kind_of].
  eexists _, _. split; [reflexivity|]. cbn [widgets calls].
  split; [|split; [|reflexivity]].
  - eexists. split; [apply lookup_insert_eq | apply widget_as_wrapped_notifiers].
  - intros x Hx. apply lookup_insert_ne. congruence.
Qed.

(** ** What the operations leave in place *)

Lemma widget_evolved_refl w : widget_evolved w w.
Proof. unfold widget_evolved. repeat split; auto. Qed.

Lemma widget_evolved_trans w1 w2 w3 :
  widget_evolved w1 w2 -> widget_evolved w2 w3 -> widget_evolved w1 w3.
Proof.
  intros (Ht & Hb & Hv & Hn & Hc & Hd & Hval) (Ht' & Hb' & Hv' & Hn' & Hc' & Hd' & Hval').
  unfold widget_evolved. repeat split; try congruence.
  - intros H. apply Hd, Hd', H.
  - intros H. apply Hd', Hd, H.
  - intros n v' H3. destruct (Hval' n v' H3) as [H2 | [v H2]].
    + exact (Hval n v' H2).
    + right. exists v. rewrite <- Hv. exact H2.
Qed.

Lemma store_evolved_refl s : store_evolved s s.
Proof.
  split; [reflexivity|]. intros x.
  destruct (widgets s !! x); constructor. apply widget_evolved_refl.
Qed.

Lemma store_evolved_trans s1 s2 s3 :
  store_evolved s1 s2 -> store_evolved s2 s3 -> store_evolved s1 s3.
Proof.
  intros [Hc Hw] [Hc' Hw']. split; [congruence|]. intros x.
  specialize (Hw x). specialize (Hw' x).
  destruct Hw as [w1 w2 H12|]; inversion Hw' as [? w3 H23|]; subst; constructor.
  eapply widget_evolved_trans; eassumption.
Qed.

(** A store that differs in the Mediator state and the trace only. *)
Lemma store_evolved_same s s' :
  widgets s' = widgets s -> comps s' = comps s -> store_evolved s s'.
Proof.
  intros Hw Hc. split; [exact Hc|]. intros x. rewrite Hw.
  destruct (widgets s !! x); constructor. apply widget_evolved_refl.
Qed.

Lemma store_evolved_update s x w w' ms tr :
  widgets s !! x = Some w -> widget_evolved w w' ->
  store_evolved s (mkWorld (<[x := w']> (widgets s)) (comps s) ms tr).
Proof.
  intros Hx Hev. split; [reflexivity|]. intros y. cbn.
  destruct (decide (x = y)) as [<-|Hne].
  - rewrite lookup_insert_eq, Hx. constructor. exact Hev.
  - rewrite lookup_insert_ne by exact Hne.
    destruct (widgets s !! y); constructor. apply widget_evolved_refl.
Qed.

(** The stores with the same widgets and the same Components: what a call
    of the Mediator relates. *)
Lemma same_objects_trans s1 s2 s3 :
  widgets s2 = widgets s1 /\ comps s2 = comps s1 ->
  widgets s3 = widgets s2 /\ comps s3 = comps s2 ->
  widgets s3 = widgets s1 /\ comps s3 = comps s1.
Proof. intros [? ?] [? ?]. split; congruence. Qed.

Lemma bind_fst_rel {A B} (R : World MS -> World MS -> Prop)
    (c : Py MS A) (k : A -> Py MS B) s :
  (forall s1 s2 s3, R s1 s2 -> R s2 s3 -> R s1 s3) ->
  R s (fst (c s)) -> (forall a s', R s' (fst (k a s'))) ->
  R s (fst (bind c k s)).
Proof.
  intros Htrans Hc Hk. unfold bind.
  destruct (c s) as [s' [a|e]]; cbn in *; eauto.
Qed.

Lemma attribute_state {A} (field : CompObj -> option A) name self s :
  fst (attribute field name self s) = s.
Proof.
  unfold attribute, bind, get_comp.
  destruct (comps s !! self) as [co|]; [|reflexivity].
  destruct (field co); reflexivity.
Qed.

Lemma get_widget_state wref s : fst (get_widget wref s) = s.
Proof. unfold get_widget. destruct (widgets s !! wref); reflexivity. Qed.

Lemma call_notify_frame m reference change s :
  widgets (fst (call_notify m reference change s)) = widgets s /\
  comps (fst (call_notify m reference change s)) = comps s.
Proof.
  unfold call_notify. destruct (notify m reference change (mstate s)).
  split; reflexivity.
Qed.

Lemma observe_handler_frame self change s :
  widgets (fst (observe_handler self change s)) = widgets s /\
  comps (fst (observe_handler self change s)) = comps s.
Proof.
  unfold observe_handler.
  apply (bind_fst_rel (fun s s' => widgets s' = widgets s /\ comps s' = comps s));
    [apply same_objects_trans | rewrite attribute_state; auto |].
  intros m s1.
  apply (bind_fst_rel (fun s s' => widgets s' = widgets s /\ comps s' = comps s));
    [apply same_objects_trans | rewrite attribute_state; auto |].
  intros reference s2.
  apply (bind_fst_rel (fun s s' => widgets s' = widgets s /\ comps s' = comps s));
    [apply same_objects_trans | apply call_notify_frame |].
  intros _ s3. cbn. auto.
Qed.

Lemma notify_observers_frame hs change s :
  widgets (fst (notify_observers hs change s)) = widgets s /\
  comps (fst (notify_observers hs change s)) = comps s.
Proof.
  revert s. induction hs as [|[self] hs IH]; intros s; cbn [notify_observers call_observer];
    [cbn; auto|].
  apply (bind_fst_rel (fun s s' => widgets s' = widgets s /\ comps s' = comps s));
    [apply same_objects_trans | apply observe_handler_frame |].
  intros _ s'. apply IH.
Qed.

(** A write to a trait: the value that validation lets through is stored,
    then the observers of the trait run when the stored value differs from
    the one before. *)
Lemma trait_set_spec s wref w name value old new :
  widgets s !! wref = Some w ->
  trait_values w !! name = Some old ->
  trait_validate w name value = Some new ->
  trait_set wref name value s =
    let s1 := with_widgets (insert wref (with_trait_values (insert name new) w)) s in
    if py_eqb old new then (s1, Ok tt)
    else notify_observers (default [] (trait_notifiers w !! name))
                          (mkChange name old new wref "change") s1.
Proof.
  intros Hw Hold Hnew. unfold trait_set.
  rewrite (bind_ok _ _ _ _ _ (get_widget_ok _ _ _ Hw)), Hold, Hnew.
  rewrite (bind_ok _ _ _ _ _ (update_widget_ok _ _ _ _ Hw)). cbv zeta.
  destruct (py_eqb old new); [reflexivity|].
  unfold notify_change.
  erewrite bind_ok by (apply get_widget_ok; cbn; apply lookup_insert_eq).
  reflexivity.
Qed.

Lemma widget_evolved_trait_write w name old value new :
  trait_values w !! name = Some old ->
  trait_validate w name value = Some new ->
  widget_evolved w (with_trait_values (insert name new) w).
Proof.
  intros Hold Hnew. unfold widget_evolved. cbn.
  repeat split; try reflexivity.
  - intros H. destruct (decide (name = n)) as [<-|Hne].
    + rewrite lookup_insert_eq in H. discriminate.
    + rewrite lookup_insert_ne in H by exact Hne. exact H.
  - intros H. destruct (decide (name = n)) as [<-|Hne].
    + congruence.
    + rewrite lookup_insert_ne by exact Hne. exact H.
  - intros n v' H. destruct (decide (name = n)) as [<-|Hne].
    + rewrite lookup_insert_eq in H. right. exists value. congruence.
    + rewrite lookup_insert_ne in H by exact Hne. left. exact H.
Qed.

Lemma widget_evolved_attr_write w name value :
  widget_evolved w (with_attrs (insert name value) w).
Proof. unfold widget_evolved. cbn. repeat split; auto. Qed.

Lemma trait_set_evolved wref name value s :
  store_evolved s (fst (trait_set wref name value s)).
Proof.
  destruct (widgets s !! wref) as [w|] eqn:Hw.
  2:{ unfold trait_set, bind, get_widget. rewrite Hw. apply store_evolved_refl. }
  destruct (trait_values w !! name) as [old|] eqn:Hold.
  2:{ unfold trait_set. rewrite (bind_ok _ _ _ _ _ (get_widget_ok _ _ _ Hw)), Hold.
      apply store_evolved_refl. }
  destruct (trait_validate w name value) as [new|] eqn:Hnew.
  2:{ unfold trait_set. rewrite (bind_ok _ _ _ _ _ (get_widget_ok _ _ _ Hw)), Hold, Hnew.
      apply store_evolved_refl. }
  rewrite (trait_set_spec s wref w name value old new Hw Hold Hnew). cbv zeta.
  assert (Hev : store_evolved s
            (with_widgets (insert wref (with_trait_values (insert name new) w)) s)).
  { apply (store_evolved_update s wref w _ _ _ Hw).
    eapply widget_evolved_trait_write; eassumption. }
  destruct (py_eqb old new); [exact Hev|].
  eapply store_evolved_trans; [exact Hev|].
  apply store_evolved_same; apply notify_observers_frame.
Qed.

(** One step of a proof that a computation leaves a later store: the
    binds are taken apart, the reads leave the store as it is. *)
Ltac evolved_bind :=
  apply bind_fst_rel;
  [ exact store_evolved_trans
  | try (first [rewrite get_widget_state | rewrite attribute_state | idtac];
         solve [apply store_evolved_refl])
  | intros ? ? ].

Lemma set_trait_evolved wref name value s :
  store_evolved s (fst (set_trait wref name value s)).
Proof.
  unfold set_trait. evolved_bind.
  destruct (has_trait _ name); [apply trait_set_evolved | apply store_evolved_refl].
Qed.

Lemma update_widget_attr_evolved wref name value s :
  store_evolved s (fst (update_widget wref (with_attrs (insert name value)) s)).
Proof.
  unfold update_widget. destruct (widgets s !! wref) as [w|] eqn:Hw.
  - apply (store_evolved_update s wref w _ _ _ Hw), widget_evolved_attr_write.
  - apply store_evolved_refl.
Qed.

Lemma setattr_evolved wref name value s :
  store_evolved s (fst (setattr wref name value s)).
Proof.
  unfold setattr. evolved_bind.
  destruct (has_trait _ name);
    [apply trait_set_evolved | apply update_widget_attr_evolved].
Qed.

Lemma on_click_evolved wref s : store_evolved s (fst (on_click wref s)).
Proof.
  unfold on_click. evolved_bind. evolved_bind.
  evolved_bind; [apply setattr_evolved | apply store_evolved_refl].
Qed.

Lemma dispatch_click_evolved cbs wref s :
  store_evolved s (fst (dispatch_click cbs wref s)).
Proof.
  revert s. induction cbs as [|[] cbs IH]; intros s; cbn [dispatch_click].
  - apply store_evolved_refl.
  - evolved_bind; [apply on_click_evolved | apply IH].
Qed.

Lemma click_evolved wref s : store_evolved s (fst (click wref s)).
Proof. unfold click. evolved_bind. apply dispatch_click_evolved. Qed.

Lemma setitem_evolved self trait value s :
  store_evolved s (fst (__setitem__ self trait value s)).
Proof.
  unfold __setitem__. evolved_bind.
  evolved_bind; [apply set_trait_evolved | apply store_evolved_refl].
Qed.

Lemma run_action_evolved a s : store_evolved s (fst (run_action a s)).
Proof.
  destruct a; cbn [run_action outcome_dropped fst].
  - apply setitem_evolved.
  - apply setattr_evolved.
  - apply click_evolved.
Qed.

Lemma run_actions_evolved acts s : store_evolved s (run_actions acts s).
Proof.
  unfold run_actions. revert s.
  induction acts as [|a acts IH]; intros s; cbn [foldl].
  - apply store_evolved_refl.
  - eapply store_evolved_trans; [apply run_action_evolved | apply IH].
Qed.

(** ** The handler and the Mediator *)

Lemma observe_handler_spec s self co m reference change :
  comps s !! self = Some co ->
  co_mediator co = Some m ->
  co_reference co = Some reference ->
  observe_handler self change s =
    (mkWorld (widgets s) (comps s)
             (fst (notify m reference change (mstate s)))
             (calls s ++ [(m, reference, change)]),
     discard VNone (snd (notify m reference change (mstate s)))).
Proof.
  intros Hc Hm Hr. unfold observe_handler.
  rewrite (bind_ok _ _ _ _ _ (attribute_ok co_mediator _ _ _ _ _ Hc Hm)).
  rewrite (bind_ok _ _ _ _ _ (attribute_ok co_reference _ _ _ _ _ Hc Hr)).
  unfold bind, call_notify, ret.
  destruct (notify m reference change (mstate s)) as [ms [v|e]]; reflexivity.
Qed.

Lemma notify_single_observer s self co m reference change :
  comps s !! self = Some co ->
  co_mediator co = Some m ->
  co_reference co = Some reference ->
  notify_observers [ObserveHandler self] change s =
    (mkWorld (widgets s) (comps s)
             (fst (notify m reference change (mstate s)))
             (calls s ++ [(m, reference, change)]),
     discard tt (snd (notify m reference change (mstate s)))).
Proof.
  intros Hc Hm Hr. cbn [notify_observers call_observer]. unfold bind at 1.
  rewrite (observe_handler_spec s self co m reference change Hc Hm Hr).
  destruct (snd (notify m reference change (mstate s))); reflexivity.
Qed.

(** ** Registration of the observer *)

Lemma add_notifier_lookup h w x n :
  trait_notifiers w !! x = None \/ trait_notifiers w !! x = Some [h] ->
  trait_notifiers (add_notifier h w x) !! n =
    if decide (n = x) then Some [h] else trait_notifiers w !! n.
Proof.
  intros Hinv. unfold add_notifier.
  destruct Hinv as [Hx | Hx]; rewrite Hx; cbn [default from_option id].
  - rewrite decide_False by (apply not_elem_of_nil). cbn.
    destruct (decide (n = x)) as [->|Hn].
    + apply lookup_insert_eq.
    + apply lookup_insert_ne. congruence.
  - rewrite decide_True by (apply list_elem_of_singleton; reflexivity).
    destruct (decide (n = x)) as [->|Hn]; [exact Hx | reflexivity].
Qed.

Lemma observe_names_lookup h names w n :
  (forall k, k ∈ names ->
     trait_notifiers w !! k = None \/ trait_notifiers w !! k = Some [h]) ->
  trait_notifiers (observe_names h names w) !! n =
    if decide (n ∈ names) then Some [h] else trait_notifiers w !! n.
Proof.
  unfold observe_names. revert w.
  induction names as [|x names IH]; intros w Hinv; cbn [foldl].
  - rewrite decide_False by (apply not_elem_of_nil). reflexivity.
  - assert (Hx : trait_notifiers w !! x = None \/ trait_notifiers w !! x = Some [h])
      by (apply Hinv; left).
    rewrite IH.
    + rewrite (add_notifier_lookup h w x n Hx).
      destruct (decide (n ∈ names)) as [Hin|Hout].
      * rewrite decide_True by (right; exact Hin). reflexivity.
      * destruct (decide (n = x)) as [->|Hne].
        -- rewrite decide_True by left. reflexivity.
        -- rewrite decide_False; [reflexivity|].
           intros Hin. apply elem_of_cons in Hin. tauto.
    + intros k Hk. rewrite (add_notifier_lookup h w x k Hx).
      destruct (decide (k = x)); [right; reflexivity | apply Hinv; right; exact Hk].
Qed.

Lemma add_notifier_fields h w x :
  trait_values (add_notifier h w x) = trait_values w /\
  trait_validate (add_notifier h w x) = trait_validate w /\
  attrs (add_notifier h w x) = attrs w /\
  click_handlers (add_notifier h w x) = click_handlers w.
Proof. unfold add_notifier. case_decide; repeat split; reflexivity. Qed.

Lemma observe_names_fields h names w :
  trait_values (observe_names h names w) = trait_values w /\
  trait_validate (observe_names h names w) = trait_validate w /\
  attrs (observe_names h names w) = attrs w /\
  click_handlers (observe_names h names w) = click_handlers w.
Proof.
  unfold observe_names. revert w.
  induction names as [|x names IH]; intros w; cbn [foldl]; [repeat split; reflexivity|].
  destruct (IH (add_notifier h w x)) as (-> & -> & -> & ->).
  apply add_notifier_fields.
Qed.

(** The writes to a trait are one and the same operation. *)
Lemma setattr_trait s wref w name old value :
  widgets s !! wref = Some w -> trait_values w !! name = Some old ->
  setattr wref name value s = trait_set wref name value s.
Proof.
  intros Hw Hold. unfold setattr.
  rewrite (bind_ok _ _ _ _ _ (get_widget_ok _ _ _ Hw)).
  unfold has_trait. rewrite Hold. reflexivity.
Qed.

Lemma set_trait_trait s wref w name old value :
  widgets s !! wref = Some w -> trait_values w !! name = Some old ->
  set_trait wref name value s = trait_set wref name value s.
Proof.
  intros Hw Hold. unfold set_trait.
  rewrite (bind_ok _ _ _ _ _ (get_widget_ok _ _ _ Hw)).
  unfold has_trait. rewrite Hold. reflexivity.
Qed.

Lemma setitem_trait s self co wref w name old value :
  comps s !! self = Some co -> co_widget co = Some wref ->
  widgets s !! wref = Some w -> trait_values w !! name = Some old ->
  __setitem__ self name value s =
    (fst (trait_set wref name value s),
     discard VNone (snd (trait_set wref name value s))).
Proof.
  intros Hc Hcw Hw Hold. unfold __setitem__.
  rewrite (bind_ok _ _ _ _ _ (attribute_ok co_widget _ _ _ _ _ Hc Hcw)).
  unfold bind. rewrite (set_trait_trait s wref w name old value Hw Hold).
  destruct (trait_set wref name value s) as [s' [[]|e]]; reflexivity.
Qed.

(** ** The store a construction leaves *)

(** The Component is wired: it knows its Mediator, its widget and its
    reference, and it is the one observer of the names it was given, when
    these names had no observer before. *)
Lemma Component_wired s m wref w wn names ns s1 self :
  widgets s !! wref = Some w ->
  (forall n, n ∈ names -> trait_notifiers w !! n = None) ->
  Component repr m wref wn names ns s = (s1, Ok self) ->
  comps s1 !! self =
    Some (built m wref (name_or_default wn w)
                (reference_of self ns (name_or_default wn w))) /\
  exists w1, widgets s1 !! wref = Some w1 /\
    trait_values w1 = trait_values (widget_as_wrapped w) /\
    trait_validate w1 = trait_validate (widget_as_wrapped w) /\
    click_handlers w1 = click_handlers (widget_as_wrapped w) /\
    forall n, trait_notifiers w1 !! n =
              if decide (n ∈ names) then Some [ObserveHandler self]
              else trait_notifiers w !! n.
Proof.
  intros Hw Hfresh Hcons.
  rewrite (Component_spec s m wref w wn names ns Hw) in Hcons. cbv zeta in Hcons.
  destruct (call_result (widget_as_wrapped w) names) as [v|e]; [|discriminate].
  injection Hcons as <- <-. cbn [comps widgets].
  assert (Hname : name_or_default wn (widget_as_wrapped w) = name_or_default wn w).
  { unfold name_or_default, default_name.
    rewrite widget_as_wrapped_type_name. reflexivity. }
  split.
  - rewrite lookup_insert_eq, Hname. reflexivity.
  - eexists. split; [apply lookup_insert_eq|].
    destruct (observe_names_fields (ObserveHandler (fresh (dom (comps s)))) names
                (widget_as_wrapped w)) as (Hv & Hval & _ & Hcl).
    repeat split; try assumption.
    intros n. rewrite observe_names_lookup.
    + rewrite widget_as_wrapped_notifiers. reflexivity.
    + intros k Hk. left.
      rewrite widget_as_wrapped_notifiers. apply Hfresh, Hk.
Qed.

(** ** The notify handler *)

(** C7.  The handler of a Component makes one call of [notify], on the
    Mediator of the Component, with the reference of the Component and the
    change it was given; the store is the one this single call leaves.
    When the Mediator returns, whatever it returns, the handler returns
    [None]; when the Mediator raises, the handler raises the same
    exception. *)
Theorem observe_handler_forwards s self co m reference change :
  comps s !! self = Some co ->
  co_mediator co = Some m ->
  co_reference co = Some reference ->
  exists s' r,
    observe_handler self change s = (s', r) /\
    calls s' = calls s ++ [(m, reference, change)] /\
    mstate s' = fst (notify m reference change (mstate s)) /\
    widgets s' = widgets s /\ comps s' = comps s /\
    (forall v, snd (notify m reference change (mstate s)) = Ok v -> r = Ok VNone) /\
    (forall e, snd (notify m reference change (mstate s)) = Raise e -> r = Raise e).
Proof.
  intros Hc Hm Hr.
  rewrite (observe_handler_spec s self co m reference change Hc Hm Hr).
  eexists _, _. split; [reflexivity|]. cbn.
  repeat split; try reflexivity.
  - intros v ->. reflexivity.
  - intros e ->. reflexivity.
Qed.

(** ** Mutations of an observed trait *)


(** ** Buttons *)

Lemma validate_Bool_bool v v' :
  validate_Bool v = Some v' -> exists b, v' = VBool b.
Proof.
  destruct v as [|b|z|?|?|?]; cbn; try discriminate.
  - intros [= <-]. eauto.
  - destruct z as [|[p|p|]|p]; cbn; try discriminate; intros [= <-]; eauto.
Qed.

Lemma py_eqb_not v : py_eqb v (py_not v) = false.
Proof.
  destruct v as [|b|z|?|?|?]; cbn; try reflexivity.
  - destruct b; reflexivity.
  - destruct (Z.eqb_spec z 0) as [->|Hz]; cbn; [reflexivity|].
    apply Z.eqb_neq. exact Hz.
Qed.

Lemma through_discard {A B} (b : B) (r : result A) :
  through_except_Exception (discard b r) = through_except_Exception r.
Proof. destruct r; reflexivity. Qed.

Lemma dispatch_one_click wref s :
  dispatch_click [OnClick] wref s =
    (fst (on_click wref s), through_except_Exception (snd (on_click wref s))).
Proof.
  cbn [dispatch_click call_click_callback].
  unfold bind, try_except_Exception, ret. cbn [fst snd].
  destruct (through_except_Exception (snd (on_click wref s))) as [[]|e]; reflexivity.
Qed.

(** The one toggle of a Button, through [click]: the outcome of the write
    of the negation, as the dispatcher passes it on. *)
Lemma click_one_toggle s wref w b s' r :
  widgets s !! wref = Some w ->
  click_handlers w = [OnClick] ->
  trait_values w !! "value" = Some (VBool b) ->
  trait_set wref "value" (VBool (negb b)) s = (s', r) ->
  click wref s = (s', through_except_Exception r).
Proof.
  intros Hw Hcl Hb Hts. unfold click.
  rewrite (bind_ok _ _ _ _ _ (get_widget_ok _ _ _ Hw)), Hcl.
  rewrite dispatch_one_click. unfold on_click.
  rewrite (bind_ok _ _ _ _ _ (get_widget_ok _ _ _ Hw)).
  assert (Hget : getattr w "value" = Ok (VBool b))
    by (unfold getattr; rewrite Hb; reflexivity).
  rewrite (bind_ok _ _ _ s (VBool b)) by (unfold lift; rewrite Hget; reflexivity).
  unfold bind at 1 2.
  rewrite (setattr_trait s wref w "value" (VBool b) _ Hw Hb).
  change (py_not (VBool b)) with (VBool (negb b)). rewrite Hts.
  destruct r as [[]|e]; reflexivity.
Qed.

(** C4, amended.  Take a Button that has not been wrapped before (no
    trait [value], no click callback, no observer) and a Component made
    for it.  The Button has got a trait [value] that holds [False], and
    one click callback.  In any later store (bracket writes, assignments
    and clicks have happened) the trait holds a boolean, and a click
    stores its negation; the click makes one call of [notify] on the
    Mediator of the Component, with the reference of the Component and the
    change from the boolean to its negation, when [value] is among the
    observed names, and no call otherwise.  The click returns, also when
    the Mediator raises an [Exception], which the dispatcher catches; an
    exception of the Mediator that is no [Exception] leaves the click. *)
Theorem button_click_toggles_and_notifies_once
    s m wref w wn names ns s1 self acts :
  widgets s !! wref = Some w ->
  is_button w = true ->
  trait_values w !! "value" = None ->
  trait_notifiers w = ∅ ->
  click_handlers w = [] ->
  Component repr m wref wn names ns s = (s1, Ok self) ->
  (exists w1, widgets s1 !! wref = Some w1 /\
              trait_values w1 !! "value" = Some (VBool false) /\
              has_trait w1 "value" = true /\
              click_handlers w1 = [OnClick]) /\
  let s2 := run_actions acts s1 in
  exists display w2 b s3 r w3,
    __str__ self s2 = (s2, Ok display) /\
    widgets s2 !! wref = Some w2 /\
    trait_values w2 !! "value" = Some (VBool b) /\
    let reference := if ns then RefComponent self else RefName display in
    let change := mkChange "value" (VBool b) (VBool (negb b)) wref "change" in
    click wref s2 = (s3, r) /\
    widgets s3 !! wref = Some w3 /\
    trait_values w3 !! "value" = Some (VBool (negb b)) /\
    calls s3 =
      calls s2 ++ (if decide ("value" ∈ names) then [(m, reference, change)] else []) /\
    r = (if decide ("value" ∈ names)
         then through_except_Exception (snd (notify m reference change (mstate s2)))
         else Ok tt).
Proof.
  intros Hw Hbut Hnovalue Hfresh Hclicks Hcons.
  assert (Hnone : forall n, trait_notifiers w !! n = None)
    by (intros n; rewrite Hfresh; apply lookup_empty).
  destruct (Component_wired s m wref w wn names ns s1 self Hw (fun n _ => Hnone n) Hcons)
    as (Hco & w1 & Hw1 & Hval1 & Hvalid1 & Hcl1 & Hobs).
  unfold widget_as_wrapped in Hval1, Hvalid1, Hcl1. rewrite Hbut in *.
  cbn in Hval1, Hcl1. rewrite Hnovalue in Hval1. rewrite Hclicks in Hcl1.
  cbn in Hcl1.
  assert (Hvalue1 : trait_values w1 !! "value" = Some (VBool false))
    by (rewrite Hval1; apply lookup_insert_eq).
  assert (HvB : forall w', trait_validate w' = trait_validate w1 ->
                  forall v, trait_validate w' "value" v = validate_Bool v).
  { intros w' Hv' v. rewrite Hv', Hvalid1. reflexivity. }
  split.
  { exists w1. repeat split; try assumption. unfold has_trait. rewrite Hvalue1.
    reflexivity. }
  intros s2.
  destruct (run_actions_evolved acts s1) as [Hcomps Hwidgets].
  fold s2 in Hcomps, Hwidgets.
  assert (Hco2 : comps s2 !! self =
            Some (built m wref (name_or_default wn w)
                        (reference_of self ns (name_or_default wn w))))
    by (rewrite Hcomps; exact Hco).
  specialize (Hwidgets wref). rewrite Hw1 in Hwidgets.
  inversion Hwidgets as [? w2 (_ & _ & Hvalid2 & Hnot2 & Hcl2 & Hdom2 & Hfrom2) Heq1 Hw2|];
    subst. symmetry in Hw2.
  (* the trait holds a boolean *)
  assert (Hbool : exists b, trait_values w2 !! "value" = Some (VBool b)).
  { destruct (trait_values w2 !! "value") as [v'|] eqn:Hv'.
    - destruct (Hfrom2 "value" v' Hv') as [Hsame | [v Hv]].
      + exists false. congruence.
      + rewrite (HvB w1 eq_refl) in Hv.
        destruct (validate_Bool_bool v v' Hv) as [b ->]. eauto.
    - apply Hdom2 in Hv'. congruence. }
  destruct Hbool as [b Hb].
  pose (w3 := with_trait_values (insert "value" (VBool (negb b))) w2).
  assert (Hset := trait_set_spec s2 wref w2 "value" (VBool (negb b)) (VBool b)
                    (VBool (negb b)) Hw2 Hb).
  rewrite (HvB w2 Hvalid2) in Hset. specialize (Hset eq_refl). cbv zeta in Hset.
  replace (py_eqb (VBool b) (VBool (negb b))) with false in Hset
    by (destruct b; reflexivity).
  rewrite Hnot2, Hobs, Hnone in Hset.
  assert (Hcl : click_handlers w2 = [OnClick]) by (rewrite Hcl2; exact Hcl1).
  exists (name_or_default wn w), w2, b.
  destruct (decide ("value" ∈ names)) as [Hin|Hout]; cbn [default from_option id] in Hset.
  - erewrite notify_single_observer in Hset by (first [exact Hco2 | reflexivity]).
    eexists _, _, w3. split; [|split; [first [exact Hw2 | reflexivity]|split; [exact Hb|]]].
    { unfold __str__. eapply attribute_ok; [exact Hco2 | reflexivity]. }
    cbv zeta.
    split; [exact (click_one_toggle s2 wref w2 b _ _ Hw2 Hcl Hb Hset)|]. cbn.
    split; [apply lookup_insert_eq|].
    split; [apply lookup_insert_eq|].
    split; [reflexivity | apply through_discard].
  - eexists _, _, w3. split; [|split; [first [exact Hw2 | reflexivity]|split; [exact Hb|]]].
    { unfold __str__. eapply attribute_ok; [exact Hco2 | reflexivity]. }
    cbv zeta.
    split; [exact (click_one_toggle s2 wref w2 b _ _ Hw2 Hcl Hb Hset)|]. cbn.
    split; [apply lookup_insert_eq|].
    split; [apply lookup_insert_eq|].
    split; [symmetry; apply app_nil_r | reflexivity].
Qed.

(** ** Reads, writes and membership *)


(** C6, amended.  For a Component, a name that is a trait of its widget
    and a value that the validation of the trait lets through as it is, the
    bracket write stores the value, so that the bracket read of the same
    name in the store the write leaves returns it.  The write returns
    [None] or raises what an observer of the trait raised; it returns
    [None] when the value is equal to the one before or the trait has no
    observer. *)
Theorem setitem_then_getitem s self co wref w name old value :
  comps s !! self = Some co ->
  co_widget co = Some wref ->
  widgets s !! wref = Some w ->
  trait_values w !! name = Some old ->
  trait_validate w name value = Some value ->
  exists s' r,
    __setitem__ self name value s = (s', r) /\
    __getitem__ self name s' = (s', Ok value) /\
    (r = Ok VNone \/ exists e, r = Raise e) /\
    (py_eqb old value = true \/ trait_notifiers w !! name = None -> r = Ok VNone).
Proof.
  intros Hc Hcw Hw Hold Hval.
  rewrite (setitem_trait s self co wref w name old value Hc Hcw Hw Hold).
  pose proof (trait_set_spec s wref w name value old value Hw Hold Hval) as Hset.
  cbv zeta in Hset.
  set (s1 := with_widgets (insert wref (with_trait_values (insert name value) w)) s)
    in Hset.
  set (hs := default [] (trait_notifiers w !! name)) in Hset.
  set (ch := mkChange name old value wref "change") in Hset.
  pose proof (notify_observers_frame hs ch s1) as [Hfw Hfc].
  assert (Hread : forall s', widgets s' = widgets s1 -> comps s' = comps s1 ->
                    __getitem__ self name s' = (s', Ok value)).
  { intros s' Hws Hcs.
    rewrite (getitem_spec s' self co wref (with_trait_values (insert name value) w) name).
    - unfold getattr. cbn. rewrite lookup_insert_eq. reflexivity.
    - rewrite Hcs. exact Hc.
    - exact Hcw.
    - rewrite Hws. cbn. apply lookup_insert_eq. }
  eexists _, _. split; [reflexivity|]. rewrite Hset.
  destruct (py_eqb old value) eqn:Heq; cbn [fst snd].
  - split; [apply Hread; reflexivity|].
    split; [left; reflexivity | intros _; reflexivity].
  - split; [apply Hread; assumption|]. split.
    + destruct (snd (notify_observers hs ch s1)) as [[]|e]; cbn; eauto.
    + intros [Hcontra|Hnone]; [discriminate|].
      subst hs. rewrite Hnone. reflexivity.
Qed.


(** ** The display name *)

Lemma append_not_empty (a b : string) : b <> "" -> a +:+ b <> "".
Proof. destruct a; cbn; [auto | discriminate]. Qed.

Lemma name_or_default_not_empty wn w : name_or_default wn w <> "".
Proof.
  unfold name_or_default, default_name.
  destruct wn as [n|]; [|apply append_not_empty; discriminate].
  cbn. destruct (String.eqb_spec n ""); cbn;
    [apply append_not_empty; discriminate | assumption].
Qed.

(** C5.  After a construction the Component has a display name: the
    [widget_name] it was given when that is not the empty string, else the
    type name of the widget followed by [Component].  [str] returns it, in
    the store the construction leaves and in every later store with this
    Component, and it is the reference the Mediator gets under
    [notify_self=False]. *)
Theorem str_is_the_display_name s m wref w wn names ns s1 self :
  widgets s !! wref = Some w ->
  Component repr m wref wn names ns s = (s1, Ok self) ->
  exists co display,
    comps s1 !! self = Some co /\
    co_widget_name co = Some display /\
    __str__ self s1 = (s1, Ok display) /\
    (forall s2, comps s2 !! self = Some co -> __str__ self s2 = (s2, Ok display)) /\
    (wn = None -> display = type_name w +:+ "Component") /\
    (forall n, wn = Some n -> n <> "" -> display = n) /\
    (wn = Some "" -> display = type_name w +:+ "Component") /\
    co_reference co = Some (if ns then RefComponent self else RefName display).
Proof.
  intros Hw Hcons.
  rewrite (Component_spec s m wref w wn names ns Hw) in Hcons. cbv zeta in Hcons.
  destruct (call_result (widget_as_wrapped w) names) as [v|e]; [|discriminate].
  injection Hcons as <- <-.
  eexists _, _. split; [cbn; apply lookup_insert_eq|].
  split; [reflexivity|].
  split; [unfold __str__; eapply attribute_ok; [cbn; apply lookup_insert_eq | reflexivity]|].
  split.
  { intros s2 Hs2. unfold __str__. eapply attribute_ok; [exact Hs2 | reflexivity]. }
  split.
  { intros ->. cbn. unfold default_name.
    rewrite widget_as_wrapped_type_name. reflexivity. }
  split.
  { intros n -> Hn. cbn. destruct (String.eqb_spec n ""); [contradiction | reflexivity]. }
  split.
  { intros ->. cbn. unfold default_name.
    rewrite widget_as_wrapped_type_name. reflexivity. }
  reflexivity.
Qed.

(** C10.  After a construction [str] never returns the empty string; in
    particular, with the empty string as [widget_name] the display name is
    the default one, the type name of the widget followed by
    [Component]. *)
Theorem empty_widget_name_gives_the_default s m wref w wn names ns s1 self :
  widgets s !! wref = Some w ->
  Component repr m wref wn names ns s = (s1, Ok self) ->
  exists display,
    __str__ self s1 = (s1, Ok display) /\
    display <> "" /\
    (wn = Some "" -> display = type_name w +:+ "Component").
Proof.
  intros Hw Hcons.
  rewrite (Component_spec s m wref w wn names ns Hw) in Hcons. cbv zeta in Hcons.
  destruct (call_result (widget_as_wrapped w) names) as [v|e]; [|discriminate].
  injection Hcons as <- <-.
  exists (name_or_default wn (widget_as_wrapped w)).
  split; [unfold __str__; eapply attribute_ok; [cbn; apply lookup_insert_eq | reflexivity]|].
  split; [apply name_or_default_not_empty|].
  intros ->. cbn. unfold default_name.
  rewrite widget_as_wrapped_type_name. reflexivity.
Qed.

(** * More of the Component *)

(** ** Writes the widget refuses *)

(** X1.  A bracket write that the widget refuses, because the name is not
    a trait or because the validation of the trait refuses the value,
    raises a TraitError and leaves the store as it was: nothing is stored
    and nobody is told. *)
Theorem bracket_write_refused s self co wref w name value :
  comps s !! self = Some co ->
  co_widget co = Some wref ->
  widgets s !! wref = Some w ->
  trait_values w !! name = None \/ trait_validate w name value = None ->
  exists msg, __setitem__ self name value s = (s, Raise (Exn TraitError msg None)).
Proof.
  intros Hc Hcw Hw Hrefused. unfold __setitem__.
  rewrite (bind_ok _ _ _ _ _ (attribute_ok co_widget _ _ _ _ _ Hc Hcw)).
  unfold set_trait, bind at 1.
  rewrite (bind_ok _ _ _ _ _ (get_widget_ok _ _ _ Hw)).
  unfold has_trait.
  destruct (trait_values w !! name) as [old|] eqn:Hold.
  - destruct Hrefused as [Hcontra|Hval]; [discriminate|].
    unfold trait_set.
    rewrite (bind_ok _ _ _ _ _ (get_widget_ok _ _ _ Hw)), Hold, Hval.
    eexists. reflexivity.
  - eexists. reflexivity.
Qed.

(** ** Reads *)

Lemma getitem_state self name s : fst (__getitem__ self name s) = s.
Proof.
  unfold __getitem__.
  apply (bind_fst_rel (fun s s' => s' = s)); [congruence | apply attribute_state |].
  intros wref s1.
  apply (bind_fst_rel (fun s s' => s' = s)); [congruence | apply get_widget_state |].
  reflexivity.
Qed.

Lemma mapM_getitem_state self names s :
  fst (mapM (__getitem__ self) names s) = s.
Proof.
  revert s. induction names as [|n names IH]; intros s; cbn [mapM]; [reflexivity|].
  apply (bind_fst_rel (fun s s' => s' = s)); [congruence | apply getitem_state |].
  intros v s1.
  apply (bind_fst_rel (fun s s' => s' = s)); [congruence | apply IH |].
  reflexivity.
Qed.

(** X2.  The bracket read, the multi-read, the membership test and [str]
    leave the store as it is, on every store and every argument, whether
    they return or raise. *)
Theorem reads_leave_the_store s self name names :
  fst (__getitem__ self name s) = s /\
  fst (__call__ self names s) = s /\
  fst (__contains__ self name s) = s /\
  fst (__str__ self s) = s.
Proof.
  split; [apply getitem_state|]. split; [|split].
  - destruct names as [|n [|n' names]]; unfold __call__, itemgetter.
    + reflexivity.
    + apply getitem_state.
    + apply (bind_fst_rel (fun s s' => s' = s));
        [congruence | apply mapM_getitem_state | reflexivity].
  - unfold __contains__.
    apply (bind_fst_rel (fun s s' => s' = s)); [congruence | apply attribute_state |].
    intros wref s1.
    apply (bind_fst_rel (fun s s' => s' = s)); [congruence | apply get_widget_state |].
    reflexivity.
  - apply attribute_state.
Qed.

Lemma getattrs_first_missing w pre n post :
  Forall (fun k => hasattr w k = true) pre ->
  hasattr w n = false ->
  getattrs w (pre ++ n :: post) = Raise (no_attribute w n).
Proof.
  intros Hpre Hn. induction Hpre as [|k pre Hk _ IH]; cbn.
  - rewrite (getattr_missing w n Hn). reflexivity.
  - destruct (getattr_present w k Hk) as [v ->]. rewrite IH. reflexivity.
Qed.

Lemma call_result_first_missing w pre n post :
  Forall (fun k => hasattr w k = true) pre ->
  hasattr w n = false ->
  call_result w (pre ++ n :: post) = Raise (no_attribute w n).
Proof.
  intros Hpre Hn.
  pose proof (getattrs_first_missing w pre n post Hpre Hn) as Hall.
  destruct (pre ++ n :: post) as [|a [|b l]] eqn:Hshape.
  - destruct pre; discriminate.
  - cbn in Hall. unfold call_result.
    destruct (getattr w a); [discriminate | congruence].
  - unfold call_result. rewrite Hall. reflexivity.
Qed.

(** X3.  A bracket read of a name the widget has no attribute for raises
    the AttributeError of that name; a multi-read looks the names up in
    order and raises the AttributeError of the first name the widget has
    no attribute for, whatever follows it. *)
Theorem multi_read_reports_the_first_missing_name s self co wref w pre n post :
  comps s !! self = Some co ->
  co_widget co = Some wref ->
  widgets s !! wref = Some w ->
  Forall (fun k => hasattr w k = true) pre ->
  hasattr w n = false ->
  __getitem__ self n s = (s, Raise (no_attribute w n)) /\
  __call__ self (pre ++ n :: post) s = (s, Raise (no_attribute w n)) /\
  exn_kind_of (no_attribute w n) = AttributeError.
Proof.
  intros Hc Hcw Hw Hpre Hn. split; [|split; [|reflexivity]].
  - rewrite (getitem_spec s self co wref w n Hc Hcw Hw), (getattr_missing w n Hn).
    reflexivity.
  - rewrite (call_spec s self co wref w _ Hc Hcw Hw).
    rewrite (call_result_first_missing w pre n post Hpre Hn). reflexivity.
Qed.

(** X4.  When the construction fails on its names, the ValueError is
    chained to the AttributeError of the first name, in the order of the
    tuple, that the widget has no attribute for. *)
Theorem construction_is_chained_to_the_first_missing_name
    s m wref w wn pre n post ns :
  widgets s !! wref = Some w ->
  Forall (fun k => hasattr (widget_as_wrapped w) k = true) pre ->
  hasattr (widget_as_wrapped w) n = false ->
  snd (Component repr m wref wn (pre ++ n :: post) ns s) =
    Raise (Exn ValueError
             ("check 'names' parameter: " +:+
              repr (VTuple (VStr <$> pre ++ n :: post)))
             (Some (no_attribute (widget_as_wrapped w) n))).
Proof.
  intros Hw Hpre Hn.
  rewrite (Component_spec s m wref w wn _ ns Hw). cbv zeta.
  rewrite (call_result_first_missing _ pre n post Hpre Hn). reflexivity.
Qed.

(** ** What a construction changes *)

Lemma add_notifier_is_button h w x : is_button (add_notifier h w x) = is_button w.
Proof. unfold add_notifier. destruct (decide _); reflexivity. Qed.

Lemma observe_names_is_button h names w :
  is_button (observe_names h names w) = is_button w.
Proof.
  unfold observe_names. revert w.
  induction names as [|x names IH]; intros w; cbn [foldl]; [reflexivity|].
  rewrite IH. apply add_notifier_is_button.
Qed.

(** X5.  A construction that returns gives the Component an identity no
    Component of the store had, and touches nothing but this Component
    and its widget: the other Components and the other widgets are as they
    were, no Mediator is called.  Of a widget that is not a Button it
    changes the observers only: type, traits, validation, attributes and
    click callbacks stay. *)
Theorem construction_touches_nothing_else s m wref w wn names ns s1 self :
  widgets s !! wref = Some w ->
  Component repr m wref wn names ns s = (s1, Ok self) ->
  comps s !! self = None /\
  (forall c, c <> self -> comps s1 !! c = comps s !! c) /\
  (forall x, x <> wref -> widgets s1 !! x = widgets s !! x) /\
  mstate s1 = mstate s /\
  calls s1 = calls s /\
  exists w1,
    widgets s1 !! wref = Some w1 /\
    type_name w1 = type_name w /\
    is_button w1 = is_button w /\
    attrs w1 = attrs w /\
    (is_button w = false ->
     trait_values w1 = trait_values w /\
     trait_validate w1 = trait_validate w /\
     click_handlers w1 = click_handlers w).
Proof.
  intros Hw Hcons.
  rewrite (Component_spec s m wref w wn names ns Hw) in Hcons. cbv zeta in Hcons.
  destruct (call_result (widget_as_wrapped w) names) as [v|e]; [|discriminate].
  injection Hcons as <- <-. cbn [comps widgets mstate calls].
  split; [apply fresh_comp_unused|].
  split; [intros c Hc; apply lookup_insert_ne; congruence|].
  split; [intros x Hx; apply lookup_insert_ne; congruence|].
  split; [reflexivity|]. split; [reflexivity|].
  eexists. split; [apply lookup_insert_eq|].
  destruct (observe_names_fields (ObserveHandler (fresh (dom (comps s)))) names
              (widget_as_wrapped w)) as (Hv & Hval & Hat & Hcl).
  rewrite observe_names_type_name, widget_as_wrapped_type_name.
  rewrite observe_names_is_button, Hv, Hval, Hat, Hcl.
  unfold widget_as_wrapped.
  destruct (is_button w) eqn:Hb; cbn; rewrite ?Hb;
    (split; [reflexivity|]); (split; [reflexivity|]);
    (split; [reflexivity|]); intros Hnb;
    [discriminate | repeat split; reflexivity].
Qed.

Lemma add_notifier_other h w x n :
  n <> x -> trait_notifiers (add_notifier h w x) !! n = trait_notifiers w !! n.
Proof.
  intros Hne. unfold add_notifier. destruct (decide _); [reflexivity|].
  cbn. apply lookup_insert_ne. congruence.
Qed.

(** The observers of one name through a registration: the handler goes
    behind those the name had, once, however often the name is given. *)
Lemma observe_names_step h names n (l0 : list observer) w :
  h ∉ l0 ->
  default [] (trait_notifiers w !! n) = l0 \/
    trait_notifiers w !! n = Some (l0 ++ [h]) ->
  trait_notifiers (observe_names h names w) !! n =
    if decide (n ∈ names) then Some (l0 ++ [h]) else trait_notifiers w !! n.
Proof.
  intros Hnotin. unfold observe_names. revert w.
  induction names as [|x names IH]; intros w Hinv; cbn [foldl].
  - rewrite decide_False by (apply not_elem_of_nil). reflexivity.
  - destruct (decide (n = x)) as [->|Hne].
    + assert (Hx : trait_notifiers (add_notifier h w x) !! x = Some (l0 ++ [h])).
      { unfold add_notifier. destruct Hinv as [Hl0 | Hdone].
        - rewrite Hl0. rewrite decide_False by exact Hnotin.
          cbn. apply lookup_insert_eq.
        - rewrite Hdone. cbn [default from_option id].
          rewrite decide_True; [exact Hdone|].
          apply elem_of_app. right. left. }
      rewrite IH by (right; exact Hx).
      rewrite Hx. rewrite (decide_True (P := x ∈ x :: names)) by left.
      destruct (decide (x ∈ names)); reflexivity.
    + rewrite IH by (rewrite (add_notifier_other h w x n Hne); exact Hinv).
      rewrite (add_notifier_other h w x n Hne).
      destruct (decide (n ∈ names)) as [Hin|Hout].
      * rewrite decide_True by (right; exact Hin). reflexivity.
      * rewrite decide_False; [reflexivity|].
        intros Hin. apply elem_of_cons in Hin. tauto.
Qed.

Lemma observe_names_append h names w n :
  h ∉ default [] (trait_notifiers w !! n) ->
  trait_notifiers (observe_names h names w) !! n =
    if decide (n ∈ names)
    then Some (default [] (trait_notifiers w !! n) ++ [h])
    else trait_notifiers w !! n.
Proof.
  intros Hnotin. apply observe_names_step; [exact Hnotin | left; reflexivity].
Qed.

(** X6.  In a store where the observers of the widget are handlers of
    Components of the store, a construction that returns puts the handler
    of the new Component behind the observers each of its names had, and
    leaves the observers of every other name as they were. *)
Theorem construction_appends_its_observer s m wref w wn names ns s1 self :
  widgets s !! wref = Some w ->
  (forall n l c, trait_notifiers w !! n = Some l -> ObserveHandler c ∈ l ->
                 is_Some (comps s !! c)) ->
  Component repr m wref wn names ns s = (s1, Ok self) ->
  exists w1,
    widgets s1 !! wref = Some w1 /\
    forall n,
      trait_notifiers w1 !! n =
        if decide (n ∈ names)
        then Some (default [] (trait_notifiers w !! n) ++ [ObserveHandler self])
        else trait_notifiers w !! n.
Proof.
  intros Hw Hwf Hcons.
  rewrite (Component_spec s m wref w wn names ns Hw) in Hcons. cbv zeta in Hcons.
  destruct (call_result (widget_as_wrapped w) names) as [v|e]; [|discriminate].
  injection Hcons as <- <-. cbn [widgets].
  eexists. split; [apply lookup_insert_eq|]. intros n.
  rewrite observe_names_append; rewrite widget_as_wrapped_notifiers; [reflexivity|].
  intros Hin. destruct (trait_notifiers w !! n) as [l|] eqn:Hl; cbn in Hin.
  - destruct (Hwf n l _ Hl Hin) as [co Hco].
    rewrite fresh_comp_unused in Hco. discriminate.
  - apply not_elem_of_nil in Hin. exact Hin.
Qed.

Lemma wrapped_button_value w :
  is_button w = true ->
  trait_values (widget_as_wrapped w) !! "value" =
    Some (default (VBool false) (trait_values w !! "value")).
Proof.
  intros Hbut. unfold widget_as_wrapped. rewrite Hbut. cbn.
  destruct (trait_values w !! "value") as [v|] eqn:Hv; cbn.
  - exact Hv.
  - apply lookup_insert_eq.
Qed.

(** X8.  A construction that raises has wrapped the Button all the same:
    [__new__] has run before [__init__] looks at the names, so the Button
    has a trait [value], which holds what the Button held under that name
    and [False] when it held nothing, and it has one click callback more;
    its observers are those it had. *)
Theorem failed_construction_leaves_the_button_wrapped s m wref w wn names ns s1 e :
  widgets s !! wref = Some w ->
  is_button w = true ->
  Component repr m wref wn names ns s = (s1, Raise e) ->
  exists w1,
    widgets s1 !! wref = Some w1 /\
    has_trait w1 "value" = true /\
    trait_values w1 !! "value" =
      Some (default (VBool false) (trait_values w !! "value")) /\
    (forall v, trait_validate w1 "value" v = validate_Bool v) /\
    click_handlers w1 = click_handlers w ++ [OnClick] /\
    trait_notifiers w1 = trait_notifiers w.
Proof.
  intros Hw Hbut Hcons.
  rewrite (Component_spec s m wref w wn names ns Hw) in Hcons. cbv zeta in Hcons.
  destruct (call_result (widget_as_wrapped w) names) as [v|e']; [discriminate|].
  injection Hcons as <- _. cbn [widgets].
  eexists. split; [apply lookup_insert_eq|].
  pose proof (wrapped_button_value w Hbut) as Hvalue.
  split; [unfold has_trait; rewrite Hvalue; reflexivity|].
  split; [exact Hvalue|].
  unfold widget_as_wrapped. rewrite Hbut. repeat split; reflexivity.
Qed.

(** ** Clicks *)

Lemma bind_ret_state {A B} (c : Py MS A) (b : B) s :
  fst (bind c (fun _ => ret b) s) = fst (c s).
Proof. unfold bind, ret. destruct (c s) as [s' [a|e]]; reflexivity. Qed.

Lemma on_click_toggles s wref w b :
  widgets s !! wref = Some w ->
  trait_values w !! "value" = Some (VBool b) ->
  trait_validate w "value" (VBool (negb b)) = Some (VBool (negb b)) ->
  widgets (fst (on_click wref s)) =
    <[wref := with_trait_values (insert "value" (VBool (negb b))) w]> (widgets s) /\
  comps (fst (on_click wref s)) = comps s.
Proof.
  intros Hw Hb Hval. unfold on_click.
  rewrite (bind_ok _ _ _ _ _ (get_widget_ok _ _ _ Hw)).
  assert (Hget : getattr w "value" = Ok (VBool b))
    by (unfold getattr; rewrite Hb; reflexivity).
  rewrite (bind_ok _ _ _ s (VBool b)) by (unfold lift; rewrite Hget; reflexivity).
  rewrite bind_ret_state.
  rewrite (setattr_trait s wref w "value" (VBool b) _ Hw Hb).
  change (py_not (VBool b)) with (VBool (negb b)).
  rewrite (trait_set_spec s wref w "value" (VBool (negb b)) (VBool b)
             (VBool (negb b)) Hw Hb Hval).
  cbv zeta.
  replace (py_eqb (VBool b) (VBool (negb b))) with false by (destruct b; reflexivity).
  match goal with
  | |- context [notify_observers ?hs ?ch ?s1] =>
      destruct (notify_observers_frame hs ch s1) as [Hfw Hfc]
  end.
  rewrite Hfw, Hfc. split; reflexivity.
Qed.

(** What the operations raise when the Mediators raise [Exception]s
    only. *)
Lemma only_Exceptions_bind {A B} (c : Py MS A) (k : A -> Py MS B) :
  only_Exceptions c -> (forall a, only_Exceptions (k a)) ->
  only_Exceptions (bind c k).
Proof.
  intros Hc Hk s e. unfold bind.
  destruct (c s) as [s' [a|e']] eqn:Hcs; cbn.
  - apply Hk.
  - intros [= <-]. apply (Hc s). rewrite Hcs. reflexivity.
Qed.

Lemma only_Exceptions_ret {A} (a : A) : only_Exceptions (ret (MS := MS) a).
Proof. intros s e. discriminate. Qed.

Lemma only_Exceptions_get_widget wref : only_Exceptions (MS := MS) (get_widget wref).
Proof.
  intros s e. unfold get_widget.
  destruct (widgets s !! wref); cbn; [discriminate | intros [= <-]; reflexivity].
Qed.

Lemma only_Exceptions_update_widget wref f : only_Exceptions (MS := MS) (update_widget wref f).
Proof.
  intros s e. unfold update_widget.
  destruct (widgets s !! wref); cbn; [discriminate | intros [= <-]; reflexivity].
Qed.

Lemma only_Exceptions_attribute {A} (field : CompObj -> option A) name self :
  only_Exceptions (MS := MS) (attribute field name self).
Proof.
  intros s e. unfold attribute, bind, get_comp.
  destruct (comps s !! self) as [co|]; cbn; [|intros [= <-]; reflexivity].
  destruct (field co); cbn; [discriminate | intros [= <-]; reflexivity].
Qed.

Lemma only_Exceptions_getattr w name : only_Exceptions (lift (MS := MS) (getattr w name)).
Proof.
  intros s e. unfold lift. cbn. intros Hr.
  rewrite (getattr_raises w name e Hr). reflexivity.
Qed.

Section OnlyExceptions.

Hypothesis Hmed : mediators_raise_Exceptions.

Lemma only_Exceptions_observe_handler self change :
  only_Exceptions (observe_handler self change).
Proof.
  unfold observe_handler.
  apply only_Exceptions_bind; [apply only_Exceptions_attribute | intros m].
  apply only_Exceptions_bind; [apply only_Exceptions_attribute | intros reference].
  apply only_Exceptions_bind; [| intros _; apply only_Exceptions_ret].
  intros s e. unfold call_notify.
  pose proof (Hmed m reference change (mstate s) e) as H.
  destruct (notify m reference change (mstate s)) as [ms r]. exact H.
Qed.

Lemma only_Exceptions_notify_observers hs change :
  only_Exceptions (notify_observers hs change).
Proof.
  induction hs as [|[self] hs IH]; cbn [notify_observers call_observer].
  - apply only_Exceptions_ret.
  - apply only_Exceptions_bind; [apply only_Exceptions_observe_handler | intros _; exact IH].
Qed.

Lemma only_Exceptions_trait_set wref name value :
  only_Exceptions (trait_set wref name value).
Proof.
  unfold trait_set.
  apply only_Exceptions_bind; [apply only_Exceptions_get_widget | intros w].
  destruct (trait_values w !! name) as [old|]; [|intros s e [= <-]; reflexivity].
  destruct (trait_validate w name value) as [new|]; [|intros s e [= <-]; reflexivity].
  apply only_Exceptions_bind; [apply only_Exceptions_update_widget | intros _].
  destruct (py_eqb old new); [apply only_Exceptions_ret|].
  unfold notify_change.
  apply only_Exceptions_bind; [apply only_Exceptions_get_widget | intros w'].
  apply only_Exceptions_notify_observers.
Qed.

Lemma only_Exceptions_on_click wref : only_Exceptions (on_click wref).
Proof.
  unfold on_click.
  apply only_Exceptions_bind; [apply only_Exceptions_get_widget | intros w].
  apply only_Exceptions_bind; [apply only_Exceptions_getattr | intros v].
  apply only_Exceptions_bind; [| intros _; apply only_Exceptions_ret].
  unfold setattr.
  apply only_Exceptions_bind; [apply only_Exceptions_get_widget | intros w'].
  destruct (has_trait w' "value");
    [apply only_Exceptions_trait_set | apply only_Exceptions_update_widget].
Qed.

(** The dispatcher on [cbs], all of them the toggle of [__new__]: each
    runs once, so the boolean is negated once for each. *)
Lemma dispatch_click_toggles cbs : forall s wref w b,
  widgets s !! wref = Some w ->
  trait_values w !! "value" = Some (VBool b) ->
  (forall b', trait_validate w "value" (VBool b') = Some (VBool b')) ->
  exists s' w',
    dispatch_click cbs wref s = (s', Ok tt) /\
    widgets s' !! wref = Some w' /\
    trait_values w' !! "value" = Some (VBool (xorb b (Nat.odd (length cbs)))) /\
    trait_validate w' = trait_validate w /\
    comps s' = comps s.
Proof.
  induction cbs as [|[] cbs IH]; intros s wref w b Hw Hb Hval.
  - exists s, w. cbn. rewrite xorb_false_r. repeat split; assumption.
  - cbn [dispatch_click].
    destruct (on_click_toggles s wref w b Hw Hb (Hval (negb b))) as [Hws Hcs].
    assert (Hcaught : through_except_Exception (snd (on_click wref s)) = Ok tt).
    { destruct (snd (on_click wref s)) as [v|e] eqn:Hr; cbn; [reflexivity|].
      rewrite (only_Exceptions_on_click wref s e Hr). reflexivity. }
    unfold bind at 1, try_except_Exception.
    cbn [call_click_callback fst snd]. rewrite Hcaught.
    destruct (IH (fst (on_click wref s)) wref
                (with_trait_values (insert "value" (VBool (negb b))) w)
                (negb b)) as (s' & w' & Hrun & Hw' & Hv' & Hvalid' & Hc').
    + rewrite Hws. apply lookup_insert_eq.
    + cbn. apply lookup_insert_eq.
    + exact Hval.
    + exists s', w'. split; [exact Hrun|]. split; [exact Hw'|].
      split; [|split; [exact Hvalid' | rewrite Hc'; exact Hcs]].
      rewrite Hv'. do 2 f_equal. cbn [length].
      rewrite Nat.odd_succ, <- Nat.negb_odd.
      destruct b, (Nat.odd (length cbs)); reflexivity.
Qed.

End OnlyExceptions.

(** X9.  When the Mediators raise nothing but [Exception]s, which the
    dispatcher catches, a click on a widget whose trait [value] holds a
    boolean and lets booleans through returns, and has run every click
    callback once: with an even number of callbacks the boolean is what
    it was, with an odd number it is negated.  The Components of the store
    are as they were. *)
Theorem click_runs_every_toggle s wref w b :
  mediators_raise_Exceptions ->
  widgets s !! wref = Some w ->
  trait_values w !! "value" = Some (VBool b) ->
  (forall b', trait_validate w "value" (VBool b') = Some (VBool b')) ->
  exists s' w',
    click wref s = (s', Ok tt) /\
    widgets s' !! wref = Some w' /\
    trait_values w' !! "value" =
      Some (VBool (xorb b (Nat.odd (length (click_handlers w))))) /\
    comps s' = comps s.
Proof.
  intros Hmed Hw Hb Hval. unfold click.
  rewrite (bind_ok _ _ _ _ _ (get_widget_ok _ _ _ Hw)).
  destruct (dispatch_click_toggles Hmed (click_handlers w) s wref w b Hw Hb Hval)
    as (s' & w' & Hrun & Hw' & Hv' & _ & Hc').
  exists s', w'. repeat split; assumption.
Qed.

(** ** Several Components *)

Lemma Component_ok s m wref w wn names ns s1 self :
  widgets s !! wref = Some w ->
  Component repr m wref wn names ns s = (s1, Ok self) ->
  self = fresh (dom (comps s)) /\
  s1 = mkWorld
         (<[wref := observe_names (ObserveHandler self) names (widget_as_wrapped w)]>
            (widgets s))
         (<[self := built m wref (name_or_default wn w)
                      (reference_of self ns (name_or_default wn w))]> (comps s))
         (mstate s) (calls s).
Proof.
  intros Hw Hcons.
  rewrite (Component_spec s m wref w wn names ns Hw) in Hcons. cbv zeta in Hcons.
  destruct (call_result (widget_as_wrapped w) names) as [v|e]; [|discriminate].
  injection Hcons as <- <-. split; [reflexivity|].
  unfold name_or_default, default_name.
  rewrite widget_as_wrapped_type_name. reflexivity.
Qed.

Lemma widget_as_wrapped_is_button w : is_button (widget_as_wrapped w) = is_button w.
Proof. unfold widget_as_wrapped. destruct (is_button w) eqn:Hb; cbn; congruence. Qed.

(** Two constructions for one widget, one after the other. *)
Lemma Component_twice s m1 m2 wref w wn1 wn2 names1 names2 ns1 ns2 s1 a s2 b :
  widgets s !! wref = Some w ->
  Component repr m1 wref wn1 names1 ns1 s = (s1, Ok a) ->
  Component repr m2 wref wn2 names2 ns2 s1 = (s2, Ok b) ->
  a <> b /\
  comps s2 !! a =
    Some (built m1 wref (name_or_default wn1 w)
                (reference_of a ns1 (name_or_default wn1 w))) /\
  comps s2 !! b =
    Some (built m2 wref (name_or_default wn2 w)
                (reference_of b ns2 (name_or_default wn2 w))) /\
  widgets s2 !! wref =
    Some (observe_names (ObserveHandler b) names2
            (widget_as_wrapped
               (observe_names (ObserveHandler a) names1 (widget_as_wrapped w)))).
Proof.
  intros Hw H1 H2.
  destruct (Component_ok s m1 wref w wn1 names1 ns1 s1 a Hw H1) as [Ha Hs1].
  assert (Hw1 : widgets s1 !! wref =
            Some (observe_names (ObserveHandler a) names1 (widget_as_wrapped w)))
    by (rewrite Hs1; cbn; apply lookup_insert_eq).
  destruct (Component_ok s1 m2 wref _ wn2 names2 ns2 s2 b Hw1 H2) as [Hb Hs2].
  assert (Hne : a <> b).
  { intros Heq. pose proof (fresh_comp_unused s1) as Hfresh.
    rewrite <- Hb, <- Heq, Hs1 in Hfresh. cbn in Hfresh.
    rewrite lookup_insert_eq in Hfresh. discriminate. }
  split; [exact Hne|]. rewrite Hs2. cbn [comps widgets].
  split; [|split].
  - rewrite lookup_insert_ne by congruence. rewrite Hs1. cbn.
    apply lookup_insert_eq.
  - rewrite lookup_insert_eq. unfold name_or_default, default_name.
    rewrite observe_names_type_name, widget_as_wrapped_type_name. reflexivity.
  - apply lookup_insert_eq.
Qed.


(** X10.  A Button that has not been wrapped before (no trait [value],
    no click callback) and for which two Components are made has two
    toggles.  When the Mediators raise nothing but [Exception]s, in any
    later store a click negates the boolean twice and so leaves [value]
    as it was. *)
Theorem button_wrapped_twice_does_not_toggle
    s m1 m2 wref w wn1 wn2 names1 names2 ns1 ns2 s1 a s2 b acts :
  mediators_raise_Exceptions ->
  widgets s !! wref = Some w ->
  is_button w = true ->
  trait_values w !! "value" = None ->
  click_handlers w = [] ->
  Component repr m1 wref wn1 names1 ns1 s = (s1, Ok a) ->
  Component repr m2 wref wn2 names2 ns2 s1 = (s2, Ok b) ->
  let s3 := run_actions acts s2 in
  exists w3 v s4 w4,
    widgets s3 !! wref = Some w3 /\
    click_handlers w3 = [OnClick; OnClick] /\
    trait_values w3 !! "value" = Some (VBool v) /\
    click wref s3 = (s4, Ok tt) /\
    widgets s4 !! wref = Some w4 /\
    trait_values w4 !! "value" = Some (VBool v).
Proof.
  intros Hmed Hw Hbut Hnovalue Hclicks H1 H2 s3.
  destruct (Component_twice s m1 m2 wref w wn1 wn2 names1 names2 ns1 ns2
              s1 a s2 b Hw H1 H2) as (_ & _ & _ & Hw2).
  set (w1 := observe_names (ObserveHandler a) names1 (widget_as_wrapped w)) in *.
  set (w2 := observe_names (ObserveHandler b) names2 (widget_as_wrapped w1)) in *.
  assert (Hbut1 : is_button w1 = true).
  { unfold w1. rewrite observe_names_is_button, widget_as_wrapped_is_button.
    exact Hbut. }
  destruct (observe_names_fields (ObserveHandler a) names1 (widget_as_wrapped w))
    as (Hv1 & _ & _ & Hcl1). fold w1 in Hv1, Hcl1.
  destruct (observe_names_fields (ObserveHandler b) names2 (widget_as_wrapped w1))
    as (Hv2 & Hvalid2 & _ & Hcl2). fold w2 in Hv2, Hvalid2, Hcl2.
  assert (Hvalue2 : trait_values w2 !! "value" = Some (VBool false)).
  { rewrite Hv2, (wrapped_button_value w1 Hbut1), Hv1.
    rewrite (wrapped_button_value w Hbut), Hnovalue. reflexivity. }
  unfold widget_as_wrapped in Hcl1, Hvalid2, Hcl2.
  rewrite Hbut in Hcl1. rewrite Hbut1 in Hvalid2, Hcl2.
  cbn in Hcl1, Hcl2. rewrite Hclicks in Hcl1. rewrite Hcl1 in Hcl2.
  cbn in Hcl1, Hcl2.
  assert (HvB : forall v, trait_validate w2 "value" v = validate_Bool v)
    by (intros v; rewrite Hvalid2; reflexivity).
  destruct (run_actions_evolved acts s2) as [_ Hwidgets]. fold s3 in Hwidgets.
  specialize (Hwidgets wref). rewrite Hw2 in Hwidgets.
  inversion Hwidgets as [? w3 (_ & _ & Hvalid3 & _ & Hcl3 & Hdom3 & Hfrom3) Heq Hw3|];
    subst. symmetry in Hw3.
  assert (Hbool : exists v, trait_values w3 !! "value" = Some (VBool v)).
  { destruct (trait_values w3 !! "value") as [v'|] eqn:Hv'.
    - destruct (Hfrom3 "value" v' Hv') as [Hsame | [v Hv]].
      + exists false. congruence.
      + rewrite HvB in Hv. destruct (validate_Bool_bool v v' Hv) as [b' ->]. eauto.
    - apply Hdom3 in Hv'. congruence. }
  destruct Hbool as [v Hv].
  destruct (dispatch_click_toggles Hmed (click_handlers w3) s3 wref w3 v Hw3 Hv)
    as (s4 & w4 & Hrun & Hw4 & Hv4 & _ & _).
  { intros b'. rewrite Hvalid3, HvB. reflexivity. }
  exists w3, v, s4, w4.
  rewrite Hcl3, Hcl2 in Hv4, Hrun. cbn in Hv4. rewrite xorb_false_r in Hv4.
  split; [reflexivity|]. split; [rewrite Hcl3; exact Hcl2|].
  split; [exact Hv|]. split.
  { unfold click. rewrite (bind_ok _ _ _ _ _ (get_widget_ok _ _ _ Hw3)).
    rewrite Hcl3, Hcl2. exact Hrun. }
  split; assumption.
Qed.

(** ** Writes that tell nobody *)

(** X11.  A bracket write of a value that the trait stores as a value
    equal to the one it holds (Python's [==]) is no mutation: it returns
    [None], no Mediator is called, its Components are as they were, and
    the bracket read gives the stored value. *)
Theorem bracket_write_of_an_equal_value_is_silent
    s self co wref w name old value new :
  comps s !! self = Some co ->
  co_widget co = Some wref ->
  widgets s !! wref = Some w ->
  trait_values w !! name = Some old ->
  trait_validate w name value = Some new ->
  py_eqb old new = true ->
  exists s',
    __setitem__ self name value s = (s', Ok VNone) /\
    calls s' = calls s /\
    mstate s' = mstate s /\
    comps s' = comps s /\
    __getitem__ self name s' = (s', Ok new).
Proof.
  intros Hc Hcw Hw Hold Hnew Heq.
  rewrite (setitem_trait s self co wref w name old value Hc Hcw Hw Hold).
  rewrite (trait_set_spec s wref w name value old new Hw Hold Hnew). cbv zeta.
  rewrite Heq. eexists. split; [reflexivity|]. cbn.
  repeat split; try reflexivity.
  rewrite (getitem_spec _ self co wref (with_trait_values (insert name new) w) name);
    [| exact Hc | exact Hcw | cbn; apply lookup_insert_eq].
  unfold getattr. cbn. rewrite lookup_insert_eq. reflexivity.
Qed.

(** X13.  Two Components made without a [widget_name] for two widgets of
    the same type have the same display name.  Under [notify_self=False]
    they hand the same reference to the Mediator, which cannot tell them
    apart by it; under [notify_self=True] their references differ. *)
Theorem default_names_do_not_tell_components_apart
    s m wref1 wref2 w1 w2 names1 names2 ns s1 a s2 b :
  widgets s !! wref1 = Some w1 ->
  widgets s !! wref2 = Some w2 ->
  wref1 <> wref2 ->
  type_name w1 = type_name w2 ->
  Component repr m wref1 None names1 ns s = (s1, Ok a) ->
  Component repr m wref2 None names2 ns s1 = (s2, Ok b) ->
  exists co1 co2 r1 r2,
    a <> b /\
    comps s2 !! a = Some co1 /\
    comps s2 !! b = Some co2 /\
    co_widget_name co1 = Some (type_name w1 +:+ "Component") /\
    co_widget_name co2 = Some (type_name w1 +:+ "Component") /\
    co_reference co1 = Some r1 /\
    co_reference co2 = Some r2 /\
    (ns = false -> r1 = r2 /\ r1 = RefName (type_name w1 +:+ "Component")) /\
    (ns = true -> r1 <> r2).
Proof.
  intros Hw1 Hw2 Hne Hty H1 H2.
  destruct (Component_ok s m wref1 w1 None names1 ns s1 a Hw1 H1) as [Ha Hs1].
  assert (Hw2' : widgets s1 !! wref2 = Some w2).
  { rewrite Hs1. cbn. rewrite lookup_insert_ne by exact Hne. exact Hw2. }
  destruct (Component_ok s1 m wref2 w2 None names2 ns s2 b Hw2' H2) as [Hb Hs2].
  assert (Hab : a <> b).
  { intros Heq. pose proof (fresh_comp_unused s1) as Hfresh.
    rewrite <- Hb, <- Heq, Hs1 in Hfresh. cbn in Hfresh.
    rewrite lookup_insert_eq in Hfresh. discriminate. }
  eexists _, _, _, _. split; [exact Hab|].
  split.
  { rewrite Hs2. cbn. rewrite lookup_insert_ne by congruence.
    rewrite Hs1. cbn. apply lookup_insert_eq. }
  split; [rewrite Hs2; cbn; apply lookup_insert_eq|].
  cbn. unfold default_name. rewrite <- Hty.
  split; [reflexivity|]. split; [reflexivity|].
  split; [reflexivity|]. split; [reflexivity|].
  unfold reference_of. split; intros ->; [split; reflexivity | congruence].
Qed.

(** ** Buttons and the default names *)

(** X14.  For a Button the construction with the default names, the one
    name [value], returns whatever attributes the Button has: [__new__]
    has attached the trait before [__init__] reads it.  The trait holds
    what the Button held under that name, and [False] when it held
    nothing; the handler of the new Component is the last observer of
    [value]. *)
Theorem button_with_the_default_names_is_constructed s m wref w wn ns :
  widgets s !! wref = Some w ->
  is_button w = true ->
  (forall l c, trait_notifiers w !! "value" = Some l -> ObserveHandler c ∈ l ->
               is_Some (comps s !! c)) ->
  exists s1 self w1,
    Component repr m wref wn ["value"] ns s = (s1, Ok self) /\
    widgets s1 !! wref = Some w1 /\
    trait_values w1 !! "value" =
      Some (default (VBool false) (trait_values w !! "value")) /\
    trait_notifiers w1 !! "value" =
      Some (default [] (trait_notifiers w !! "value") ++ [ObserveHandler self]).
Proof.
  intros Hw Hbut Hwf.
  rewrite (Component_spec s m wref w wn ["value"] ns Hw). cbv zeta.
  pose proof (wrapped_button_value w Hbut) as Hvalue.
  unfold call_result, getattr. rewrite Hvalue.
  eexists _, _, _. split; [reflexivity|]. cbn [widgets].
  split; [apply lookup_insert_eq|].
  destruct (observe_names_fields (ObserveHandler (fresh (dom (comps s)))) ["value"]
              (widget_as_wrapped w)) as (-> & _).
  split; [exact Hvalue|].
  rewrite observe_names_append; rewrite widget_as_wrapped_notifiers.
  - rewrite decide_True by left. reflexivity.
  - intros Hin. destruct (trait_notifiers w !! "value") as [l|] eqn:Hl; cbn in Hin.
    + destruct (Hwf l _ eq_refl Hin) as [co Hco].
      rewrite fresh_comp_unused in Hco. discriminate.
    + apply not_elem_of_nil in Hin. exact Hin.
Qed.

End Proofs.

(** * The theorems at work on the example program *)

Lemma construction_rejects_unknown_names_witness :
  exists s' cause,
    Component example_repr 7 0 None ["value"; "nope"] false example_world =
      (s', Raise (Exn ValueError
                    ("check 'names' parameter: " +:+
                     example_repr (VTuple (VStr <$> ["value"; "nope"])))
                    (Some cause))) /\
    exn_kind_of cause = AttributeError /\
    (exists w', widgets s' !! 0 = Some w' /\
                trait_notifiers w' = trait_notifiers checkbox) /\
    (forall x, x <> 0 -> widgets s' !! x = widgets example_world !! x) /\
    calls s' = calls example_world.
Proof.
  apply (construction_rejects_unknown_names example_repr example_world 7 0 checkbox).
  - reflexivity.
  - exists "nope". split; [right; left | reflexivity].
Defined.

Lemma construction_with_no_names_is_a_TypeError_witness :
  exists s' msg,
    Component example_repr 7 0 None [] false example_world =
      (s', Raise (Exn TypeError msg None)) /\
    (exists w', widgets s' !! 0 = Some w' /\
                trait_notifiers w' = trait_notifiers checkbox) /\
    (forall x, x <> 0 -> widgets s' !! x = widgets example_world !! x) /\
    calls s' = calls example_world.
Proof.
  apply (construction_with_no_names_is_a_TypeError example_repr example_world 7 0 checkbox).
  reflexivity.
Defined.

(** The handler of the checkbox Component, on a change to [True]: the
    example Mediator answers 1, the handler returns [None]. *)
Lemma observe_handler_forwards_witness :
  let change := mkChange "value" (VBool false) (VBool true) 0 "change" in
  exists s' r,
    observe_handler 0 change checkbox_world = (s', r) /\
    calls s' = calls checkbox_world ++ [(7, RefName "CheckboxComponent", change)] /\
    mstate s' = fst (notify 7 (RefName "CheckboxComponent") change (mstate checkbox_world)) /\
    widgets s' = widgets checkbox_world /\ comps s' = comps checkbox_world /\
    (forall v, snd (notify 7 (RefName "CheckboxComponent") change (mstate checkbox_world)) = Ok v ->
               r = Ok VNone) /\
    (forall e, snd (notify 7 (RefName "CheckboxComponent") change (mstate checkbox_world)) = Raise e ->
               r = Raise e).
Proof.
  intros change.
  apply (observe_handler_forwards checkbox_world 0
           (built 7 0 "CheckboxComponent" (RefName "CheckboxComponent")) 7
           (RefName "CheckboxComponent") change).
  - vm_compute. reflexivity.
  - reflexivity.
  - reflexivity.
Defined.


(** The button of the example, clicked once before: the next click sets
    [value] back to [False] and is one call of [notify]. *)
Lemma button_click_toggles_and_notifies_once_witness :
  (exists w1, widgets button_world !! 1 = Some w1 /\
              trait_values w1 !! "value" = Some (VBool false) /\
              has_trait w1 "value" = true /\
              click_handlers w1 = [OnClick]) /\
  let s2 := run_actions [AClick 1] button_world in
  exists display w2 b s3 r w3,
    __str__ 0 s2 = (s2, Ok display) /\
    widgets s2 !! 1 = Some w2 /\
    trait_values w2 !! "value" = Some (VBool b) /\
    let reference := RefComponent 0 in
    let change := mkChange "value" (VBool b) (VBool (negb b)) 1 "change" in
    click 1 s2 = (s3, r) /\
    widgets s3 !! 1 = Some w3 /\
    trait_values w3 !! "value" = Some (VBool (negb b)) /\
    calls s3 =
      calls s2 ++ (if decide ("value" ∈ ["value"]) then [(7, reference, change)] else []) /\
    r = (if decide ("value" ∈ ["value"])
         then through_except_Exception (snd (notify 7 reference change (mstate s2)))
         else Ok tt).
Proof.
  apply (button_click_toggles_and_notifies_once example_repr example_world 7 1 button
           None ["value"] true button_world 0 [AClick 1]).
  - reflexivity.
  - reflexivity.
  - reflexivity.
  - reflexivity.
  - reflexivity.
  - vm_compute. reflexivity.
Defined.


Lemma setitem_then_getitem_witness :
  exists s' r,
    __setitem__ 0 "value" (VBool true) checkbox_world = (s', r) /\
    __getitem__ 0 "value" s' = (s', Ok (VBool true)) /\
    (r = Ok VNone \/ exists e, r = Raise e) /\
    (py_eqb (VBool false) (VBool true) = true \/
     trait_notifiers (observe_names (ObserveHandler 0) ["value"] checkbox) !! "value" = None ->
     r = Ok VNone).
Proof.
  apply (setitem_then_getitem checkbox_world 0
           (built 7 0 "CheckboxComponent" (RefName "CheckboxComponent")) 0
           (observe_names (ObserveHandler 0) ["value"] checkbox)
           "value" (VBool false) (VBool true)).
  - vm_compute. reflexivity.
  - reflexivity.
  - vm_compute. reflexivity.
  - reflexivity.
  - reflexivity.
Defined.


(** The checkbox under the name [tick]. *)
Lemma str_is_the_display_name_witness :
  let s1 := fst (Component example_repr 7 0 (Some "tick") ["value"] false example_world) in
  exists co display,
    comps s1 !! 0 = Some co /\
    co_widget_name co = Some display /\
    __str__ 0 s1 = (s1, Ok display) /\
    (forall s2 : World nat, comps s2 !! 0 = Some co -> __str__ 0 s2 = (s2, Ok display)) /\
    (Some "tick" = None -> display = type_name checkbox +:+ "Component") /\
    (forall n, Some "tick" = Some n -> n <> "" -> display = n) /\
    (Some "tick" = Some "" -> display = type_name checkbox +:+ "Component") /\
    co_reference co = Some (RefName display).
Proof.
  intros s1.
  apply (str_is_the_display_name example_repr example_world 7 0 checkbox (Some "tick")
           ["value"] false s1 0).
  - reflexivity.
  - vm_compute. reflexivity.
Defined.

Lemma empty_widget_name_gives_the_default_witness :
  exists display,
    __str__ 0 (fst (Component example_repr 7 0 (Some "") ["value"] false example_world)) =
      (fst (Component example_repr 7 0 (Some "") ["value"] false example_world), Ok display) /\
    display <> "" /\
    (Some "" = Some "" -> display = type_name checkbox +:+ "Component").
Proof.
  apply (empty_widget_name_gives_the_default example_repr example_world 7 0 checkbox
           (Some "") ["value"] false _ 0).
  - reflexivity.
  - vm_compute. reflexivity.
Defined.

(** The example of the specification: the checkbox holds [False]; the
    bracket write of [True] is one call of [notify], with the change from
    [False] to [True]; the Component was made with the defaults, so the
    reference is its display name. *)
Example checkbox_ticked :
  snd (__getitem__ 0 "value" checkbox_world) = Ok (VBool false) /\
  calls (fst (__setitem__ 0 "value" (VBool true) checkbox_world)) =
    [(7, RefName "CheckboxComponent",
      mkChange "value" (VBool false) (VBool true) 0 "change")] /\
  snd (__getitem__ 0 "value"
         (fst (__setitem__ 0 "value" (VBool true) checkbox_world))) = Ok (VBool true).
Proof. repeat split; vm_compute; reflexivity. Qed.

(** A write of the value the trait holds already is no mutation: nobody
    is told. *)
Example checkbox_unchanged :
  calls (fst (__setitem__ 0 "value" (VBool false) checkbox_world)) = [].
Proof. vm_compute. reflexivity. Qed.

(** A Button and the default names: the construction succeeds, for
    [__new__] has attached [value] before [__init__] looks for it. *)
Example button_default_names :
  hasattr button "value" = false /\
  snd (Component example_repr 7 1 None ["value"] false example_world) = Ok 0.
Proof. split; vm_compute; reflexivity. Qed.

(** A click while the Mediator is interrupted: the dispatcher does not
    catch a [KeyboardInterrupt], so the click raises it; the button has
    been toggled and the Mediator has been called once. *)
Example click_lets_a_KeyboardInterrupt_through :
  let s1 := fst (Component example_repr 7 1 None ["value"] false interrupted_world) in
  snd (click 1 s1) = Raise (Exn (NotAnException "KeyboardInterrupt") "" None) /\
  snd (__getitem__ 0 "value" (fst (click 1 s1))) = Ok (VBool true) /\
  length (calls (fst (click 1 s1))) = 1.
Proof. repeat split; vm_compute; reflexivity. Qed.

(** * Where the specification says more than the code does *)


(** C6 as stated fails on an attribute that is not a trait: [observe] is
    an attribute of the checkbox (the bracket read returns the method), the
    bracket write of 1 raises a TraitError, and the bracket read after it
    returns the method still, not 1. *)
Lemma bracket_write_of_a_plain_attribute_fails :
  hasattr checkbox "observe" = true /\
  snd (__getitem__ 0 "observe" checkbox_world) = Ok (VObj 0) /\
  snd (__setitem__ 0 "observe" (VInt 1) checkbox_world) =
    Raise (trait_error "no trait named observe") /\
  snd (__getitem__ 0 "observe"
         (fst (__setitem__ 0 "observe" (VInt 1) checkbox_world))) = Ok (VObj 0) /\
  VObj 0 <> VInt 1.
Proof. repeat split; try (vm_compute; reflexivity). discriminate. Qed.


(** * More of the Component, on the example program *)

Lemma bracket_write_refused_witness :
  exists msg,
    __setitem__ 0 "observe" (VInt 1) checkbox_world =
      (checkbox_world, Raise (Exn TraitError msg None)).
Proof.
  apply (bracket_write_refused checkbox_world 0
           (built 7 0 "CheckboxComponent" (RefName "CheckboxComponent")) 0
           (observe_names (ObserveHandler 0) ["value"] checkbox)).
  - vm_compute. reflexivity.
  - reflexivity.
  - vm_compute. reflexivity.
  - left. reflexivity.
Defined.

Lemma multi_read_reports_the_first_missing_name_witness :
  let w := observe_names (ObserveHandler 0) ["value"] checkbox in
  __getitem__ 0 "nope" checkbox_world = (checkbox_world, Raise (no_attribute w "nope")) /\
  __call__ 0 (["value"] ++ "nope" :: ["gone"]) checkbox_world =
    (checkbox_world, Raise (no_attribute w "nope")) /\
  exn_kind_of (no_attribute w "nope") = AttributeError.
Proof.
  intros w.
  apply (multi_read_reports_the_first_missing_name checkbox_world 0
           (built 7 0 "CheckboxComponent" (RefName "CheckboxComponent")) 0 w).
  - vm_compute. reflexivity.
  - reflexivity.
  - vm_compute. reflexivity.
  - repeat constructor.
  - reflexivity.
Defined.

Lemma construction_is_chained_to_the_first_missing_name_witness :
  snd (Component example_repr 7 0 None (["value"] ++ "nope" :: ["gone"]) false
         example_world) =
    Raise (Exn ValueError
             ("check 'names' parameter: " +:+
              example_repr (VTuple (VStr <$> ["value"] ++ "nope" :: ["gone"])))
             (Some (no_attribute (widget_as_wrapped checkbox) "nope"))).
Proof.
  apply (construction_is_chained_to_the_first_missing_name example_repr
           example_world 7 0 checkbox None ["value"] "nope" ["gone"] false).
  - reflexivity.
  - repeat constructor.
  - reflexivity.
Defined.

Lemma construction_touches_nothing_else_witness :
  comps example_world !! 0 = None /\
  (forall c, c <> 0 -> comps checkbox_world !! c = comps example_world !! c) /\
  (forall x, x <> 0 -> widgets checkbox_world !! x = widgets example_world !! x) /\
  mstate checkbox_world = mstate example_world /\
  calls checkbox_world = calls example_world /\
  exists w1,
    widgets checkbox_world !! 0 = Some w1 /\
    type_name w1 = type_name checkbox /\
    is_button w1 = is_button checkbox /\
    attrs w1 = attrs checkbox /\
    (is_button checkbox = false ->
     trait_values w1 = trait_values checkbox /\
     trait_validate w1 = trait_validate checkbox /\
     click_handlers w1 = click_handlers checkbox).
Proof.
  apply (construction_touches_nothing_else example_repr example_world 7 0 checkbox
           None ["value"] false checkbox_world 0).
  - reflexivity.
  - vm_compute. reflexivity.
Defined.

(** A second Component for the checkbox that has one already: its handler
    goes behind the first. *)
Lemma construction_appends_its_observer_witness :
  let w := observe_names (ObserveHandler 0) ["value"] checkbox in
  exists w1,
    widgets (fst (Component example_repr 8 0 None ["value"; "description"] true
                    checkbox_world)) !! 0 = Some w1 /\
    forall n,
      trait_notifiers w1 !! n =
        if decide (n ∈ ["value"; "description"])
        then Some (default [] (trait_notifiers w !! n) ++ [ObserveHandler 1])
        else trait_notifiers w !! n.
Proof.
  intros w.
  apply (construction_appends_its_observer example_repr checkbox_world 8 0 w None
           ["value"; "description"] true _ 1).
  - vm_compute. reflexivity.
  - intros n l c Hl Hin.
    change (trait_notifiers w) with ({[ "value" := [ObserveHandler 0] ]} : gmap string (list observer)) in Hl.
    apply lookup_singleton_Some in Hl as [_ <-].
    apply list_elem_of_singleton in Hin. injection Hin as ->.
    vm_compute. eauto.
  - vm_compute. reflexivity.
Defined.


(** The button of the example, wrapped and clicked, so that it holds
    [True], and a second construction with names it lacks: the
    construction raises, the button holds [True] still and has a second
    click callback. *)
Lemma failed_construction_leaves_the_button_wrapped_witness :
  let s := run_actions [AClick 1] button_world in
  let w := with_trait_values (insert "value" (VBool true))
             (observe_names (ObserveHandler 0) ["value"] (widget_as_wrapped button)) in
  exists w1,
    widgets (fst (Component example_repr 8 1 None ["nope"] false s)) !! 1 = Some w1 /\
    has_trait w1 "value" = true /\
    trait_values w1 !! "value" =
      Some (default (VBool false) (trait_values w !! "value")) /\
    (forall v, trait_validate w1 "value" v = validate_Bool v) /\
    click_handlers w1 = click_handlers w ++ [OnClick] /\
    trait_notifiers w1 = trait_notifiers w.
Proof.
  intros s w.
  refine (failed_construction_leaves_the_button_wrapped example_repr s
            8 1 w None ["nope"] false _ _ _ _ _).
  - vm_compute. reflexivity.
  - reflexivity.
  - vm_compute. reflexivity.
Defined.

Lemma click_runs_every_toggle_witness :
  let w := observe_names (ObserveHandler 0) ["value"] (widget_as_wrapped button) in
  exists s' w',
    click 1 button_world = (s', Ok tt) /\
    widgets s' !! 1 = Some w' /\
    trait_values w' !! "value" =
      Some (VBool (xorb false (Nat.odd (length (click_handlers w))))) /\
    comps s' = comps button_world.
Proof.
  intros w.
  apply (click_runs_every_toggle button_world 1 w false).
  - intros m reference change ms e. cbn.
    destruct (py_truthy (ch_new change)); [discriminate | intros [= <-]; reflexivity].
  - vm_compute. reflexivity.
  - reflexivity.
  - intros b'. reflexivity.
Defined.

(** The button with two Components, clicked once before. *)
Lemma button_wrapped_twice_does_not_toggle_witness :
  let s2 := fst (Component example_repr 8 1 None ["value"] false button_world) in
  let s3 := run_actions [AClick 1] s2 in
  exists w3 v s4 w4,
    widgets s3 !! 1 = Some w3 /\
    click_handlers w3 = [OnClick; OnClick] /\
    trait_values w3 !! "value" = Some (VBool v) /\
    click 1 s3 = (s4, Ok tt) /\
    widgets s4 !! 1 = Some w4 /\
    trait_values w4 !! "value" = Some (VBool v).
Proof.
  intros s2.
  apply (button_wrapped_twice_does_not_toggle example_repr example_world 7 8 1 button
           None None ["value"] ["value"] true false button_world 0 s2 1 [AClick 1]).
  - intros m reference change ms e. cbn.
    destruct (py_truthy (ch_new change)); [discriminate | intros [= <-]; reflexivity].
  - reflexivity.
  - reflexivity.
  - reflexivity.
  - reflexivity.
  - vm_compute. reflexivity.
  - vm_compute. reflexivity.
Defined.

(** The checkbox holds [False] and is written [False]. *)
Lemma bracket_write_of_an_equal_value_is_silent_witness :
  exists s',
    __setitem__ 0 "value" (VBool false) checkbox_world = (s', Ok VNone) /\
    calls s' = calls checkbox_world /\
    mstate s' = mstate checkbox_world /\
    comps s' = comps checkbox_world /\
    __getitem__ 0 "value" s' = (s', Ok (VBool false)).
Proof.
  apply (bracket_write_of_an_equal_value_is_silent checkbox_world 0
           (built 7 0 "CheckboxComponent" (RefName "CheckboxComponent")) 0
           (observe_names (ObserveHandler 0) ["value"] checkbox)
           "value" (VBool false) (VBool false) (VBool false)).
  - vm_compute. reflexivity.
  - reflexivity.
  - vm_compute. reflexivity.
  - reflexivity.
  - reflexivity.
  - reflexivity.
Defined.

Lemma default_names_do_not_tell_components_apart_witness :
  let s1 := fst (Component example_repr 7 0 None ["value"] false two_checkboxes) in
  let s2 := fst (Component example_repr 7 1 None ["value"] false s1) in
  exists co1 co2 r1 r2,
    0 <> 1 /\
    comps s2 !! 0 = Some co1 /\
    comps s2 !! 1 = Some co2 /\
    co_widget_name co1 = Some (type_name checkbox +:+ "Component") /\
    co_widget_name co2 = Some (type_name checkbox +:+ "Component") /\
    co_reference co1 = Some r1 /\
    co_reference co2 = Some r2 /\
    (false = false -> r1 = r2 /\ r1 = RefName (type_name checkbox +:+ "Component")) /\
    (false = true -> r1 <> r2).
Proof.
  intros s1 s2.
  apply (default_names_do_not_tell_components_apart example_repr two_checkboxes 7
           0 1 checkbox checkbox ["value"] ["value"] false s1 0 s2 1).
  - reflexivity.
  - reflexivity.
  - discriminate.
  - reflexivity.
  - vm_compute. reflexivity.
  - vm_compute. reflexivity.
Defined.

(** The same button, holding [True], and a second Component with the
    default names: the construction returns, the button holds [True]
    still, and the new handler is behind the first. *)
Lemma button_with_the_default_names_is_constructed_witness :
  let s := run_actions [AClick 1] button_world in
  let w := with_trait_values (insert "value" (VBool true))
             (observe_names (ObserveHandler 0) ["value"] (widget_as_wrapped button)) in
  exists s1 self w1,
    Component example_repr 8 1 None ["value"] false s = (s1, Ok self) /\
    widgets s1 !! 1 = Some w1 /\
    trait_values w1 !! "value" =
      Some (default (VBool false) (trait_values w !! "value")) /\
    trait_notifiers w1 !! "value" =
      Some (default [] (trait_notifiers w !! "value") ++ [ObserveHandler self]).
Proof.
  intros s w.
  apply (button_with_the_default_names_is_constructed example_repr s 8 1 w None false).
  - vm_compute. reflexivity.
  - reflexivity.
  - intros l c Hl Hin.
    change (trait_notifiers w !! "value") with (Some [ObserveHandler 0]) in Hl.
    injection Hl as <-. apply list_elem_of_singleton in Hin. injection Hin as ->.
    vm_compute. eauto.
Defined.

Lemma construction_succeeds_witness :
  exists s1,
    Component example_repr 7 0 None ["value"; "description"; "observe"] false
      example_world = (s1, Ok (fresh (dom (comps example_world)))).
Proof.
  apply (construction_succeeds example_repr example_world 7 0 checkbox).
  - reflexivity.
  - discriminate.
  - repeat constructor.
Defined.



(** C4 as stated fails for a Button that has been wrapped before.  With
    two Components the button of the example has two toggles: it holds
    [False] before the click and [False] after it, and the click has made
    three calls of [notify].  And a Button that was wrapped and clicked
    holds [True]; a Component made for it then finds [True], not
    [False]. *)
Lemma click_on_a_button_wrapped_twice :
  let s2 := fst (Component example_repr 8 1 None ["value"] false button_world) in
  let clicked := run_actions [AClick 1] button_world in
  snd (Component example_repr 8 1 None ["value"] false button_world) = Ok 1 /\
  snd (__getitem__ 1 "value" s2) = Ok (VBool false) /\
  snd (__getitem__ 1 "value" (fst (click 1 s2))) = Ok (VBool false) /\
  length (calls (fst (click 1 s2))) = length (calls s2) + 3 /\
  snd (__getitem__ 0 "value" clicked) = Ok (VBool true) /\
  snd (Component example_repr 8 1 None ["value"] false clicked) = Ok 1 /\
  snd (__getitem__ 1 "value"
         (fst (Component example_repr 8 1 None ["value"] false clicked))) =
    Ok (VBool true).
Proof. repeat split; vm_compute; reflexivity. Qed.
